(** * Decart video provider

    A shallow embedding of [DecartVideoProcessor_TaskSpec.js]: the input
    validators, the submit/poll entry points [run] and [result], the
    single-video pipeline and the batch loop, followed by the properties
    the specification states about them.

    Modelling conventions.
    - A JS string is a [string]; its characters are the code units below 256
      (Latin-1), on which [trim] and [toLowerCase] are given exactly.
    - A file size is an integer byte count below 2^53, so dividing it by
      1024 * 1024 is exact in double arithmetic and the comparison with the
      ceiling and the one-decimal rendering are computed on [Z].
    - [console.log] and [console.error] calls are left out; where the
      evaluation of their arguments can raise, the raise is kept.
    - Network calls, the clock and the random source are oracles of an
      environment; the world state records the calls performed. *)

From Stdlib Require Import ZArith String Ascii List DecimalString Lia Bool.
Import ListNotations.

Local Open Scope string_scope.

(** ** JavaScript string primitives used by the provider *)

Module Js.

(** WhiteSpace and LineTerminator code units below 256. *)
Definition isWhiteSpace (c : ascii) : bool :=
  let n := nat_of_ascii c in
  ((n =? 9) || (n =? 10) || (n =? 11) || (n =? 12) || (n =? 13)
   || (n =? 32) || (n =? 160))%nat.

Fixpoint trimStart (s : string) : string :=
  match s with
  | EmptyString => EmptyString
  | String c s' => if isWhiteSpace c then trimStart s' else s
  end.

Fixpoint trimEnd (s : string) : string :=
  match s with
  | EmptyString => EmptyString
  | String c s' =>
      match trimEnd s' with
      | EmptyString => if isWhiteSpace c then EmptyString else String c EmptyString
      | t => String c t
      end
  end.

(** [String.prototype.trim] *)
Definition trim (s : string) : string := trimEnd (trimStart s).

Definition toLowerChar (c : ascii) : ascii :=
  let n := nat_of_ascii c in
  if (((65 <=? n) && (n <=? 90))
      || ((192 <=? n) && (n <=? 222) && negb (n =? 215)))%nat
  then ascii_of_nat (n + 32) else c.

(** [String.prototype.toLowerCase] *)
Fixpoint toLowerCase (s : string) : string :=
  match s with
  | EmptyString => EmptyString
  | String c s' => String (toLowerChar c) (toLowerCase s')
  end.

(** [String.prototype.split] with a one-character separator. *)
Fixpoint split (sep : ascii) (s : string) : list string :=
  match s with
  | EmptyString => [EmptyString]
  | String c s' =>
      if Ascii.eqb c sep then EmptyString :: split sep s'
      else match split sep s' with
           | seg :: rest => String c seg :: rest
           | [] => [String c EmptyString]
           end
  end.

(** [Array.prototype.pop]: the last element, [undefined] on an empty array. *)
Fixpoint pop (l : list string) : option string :=
  match l with
  | [] => None
  | [x] => Some x
  | _ :: l' => pop l'
  end.

(** [String.prototype.startsWith] *)
Definition startsWith (s pre : string) : bool := String.prefix pre s.

(** [String.prototype.includes] *)
Fixpoint includes (s sub : string) : bool :=
  String.prefix sub s
  || match s with
     | EmptyString => false
     | String _ s' => includes s' sub
     end.

(** [Array.prototype.includes] on an array of strings. *)
Definition arrayIncludes (l : list string) (x : string) : bool :=
  existsb (String.eqb x) l.

(** [Array.prototype.join] *)
Fixpoint join (sep : string) (l : list string) : string :=
  match l with
  | [] => EmptyString
  | [x] => x
  | x :: l' => x ++ sep ++ join sep l'
  end.

(** Truthiness of a string, and of a [string | null | undefined]. *)
Definition truthy (s : string) : bool := negb (String.eqb s EmptyString).

Definition truthyOpt (o : option string) : bool :=
  match o with Some s => truthy s | None => false end.

(** Number-to-string conversion of an integer-valued number. *)
Definition numberToString (z : Z) : string :=
  NilZero.string_of_int (Z.to_int z).

(** [(num / den).toFixed(1)] for an exactly represented quotient,
    [den > 0]: the integer [n] closest to ten times the quotient, the
    larger one on a tie, printed with one digit after the point. *)
Definition toFixed1 (num den : Z) : string :=
  let a := Z.abs num in
  let n := ((20 * a + den) / (2 * den))%Z in
  (if (num <? 0)%Z then "-" else EmptyString)
  ++ numberToString (n / 10) ++ "." ++ numberToString (n mod 10).

(** A template-literal hole filled with a possibly undefined string. *)
Definition templateOpt (o : option string) : string :=
  match o with Some s => s | None => "undefined" end.

End Js.

(** ** Configuration: [DECART_CONFIG] *)

Module DECART_CONFIG.

Definition id : string := "decart-video".
Definition endpoint : string := "https://api.decart.ai/v1/generate/lucy-pro-v2v".
Definition timeout : Z := 300000.
Definition maxFileSizeMB : Z := 100.
Definition maxPromptLength : nat := 1000.
Definition supportedFormats : list string := ["mp4"; "avi"; "mov"; "mkv"; "webm"].

(** What a property read on the [orientations] object literal yields:
    one of its two own entries, or a member inherited from
    [Object.prototype] (a function, or the prototype object itself for
    [__proto__]), which is truthy and has neither [width] nor [height]. *)
Inductive OrientationEntry :=
| Dims (width height : Z)
| ProtoMember (name : string).

Definition objectPrototypeKeys : list string :=
  ["constructor"; "hasOwnProperty"; "isPrototypeOf"; "propertyIsEnumerable";
   "toLocaleString"; "toString"; "valueOf"; "__proto__";
   "__defineGetter__"; "__defineSetter__"; "__lookupGetter__"; "__lookupSetter__"].

Definition landscape : OrientationEntry := Dims 1280 704.
Definition portrait : OrientationEntry := Dims 704 1280.

(** [DECART_CONFIG.limits.orientations[key]], [None] for [undefined]. *)
Definition orientations (key : string) : option OrientationEntry :=
  if String.eqb key "landscape" then Some landscape
  else if String.eqb key "portrait" then Some portrait
  else if Js.arrayIncludes objectPrototypeKeys key then Some (ProtoMember key)
  else None.

Definition width (e : OrientationEntry) : option Z :=
  match e with Dims w _ => Some w | ProtoMember _ => None end.

Definition height (e : OrientationEntry) : option Z :=
  match e with Dims _ h => Some h | ProtoMember _ => None end.

End DECART_CONFIG.

(** ** Request and result types *)

Record FileRef := {
  path : string;
  signedUrl : option string;
  mime : string;
  size : Z;
  originalName : string
}.

(** [DecartVideoInput]; [file] is optional because the validator reads it
    through optional chaining. *)
Record DecartVideoInput := {
  modelCode : string;
  prompt : string;
  orientation : string;
  enhance_prompt : option bool;
  file : option FileRef
}.

Record CsvFile := {
  csv_path : string;
  csv_signedUrl : option string;
  csv_mime : string;
  csv_size : Z;
  prompts : option (list string)
}.

Record DecartBatchInput := {
  batch_modelCode : string;
  batch_orientation : string;
  batch_enhance_prompt : option bool;
  videoFile : option FileRef;
  csvFile : option CsvFile
}.

(** The request of [run] and [result], discriminated by its [type] tag:
    ['batch-video-processing'] or anything else. *)
Inductive ProviderInput :=
| SingleInput (input : DecartVideoInput)
| BatchInput (input : DecartBatchInput).

Record DecartVideoOutput := {
  out_url : string;
  out_format : string;
  out_width : option Z;
  out_height : option Z;
  out_provider : string;
  out_model : string;
  out_prompt : string;
  out_orientation : string;
  out_outputFile : option string
}.

Record BatchResult := {
  res_prompt : string;
  success : bool;
  videoUrl : option string;
  outputFile : option string;
  res_error : option string
}.

Record DecartBatchOutput := {
  totalProcessed : nat;
  successCount : nat;
  failureCount : nat;
  results : list BatchResult
}.

Inductive ProviderOutput :=
| VideoOutput (o : DecartVideoOutput)
| BatchResults (o : DecartBatchOutput).

Inductive ProviderRunResult :=
| Deferred (providerJobId : string).

Inductive ProviderStatusResult :=
| Running
| Succeeded (output : ProviderOutput)
| Failed (error : string).

Record ValidationResult := {
  valid : bool;
  error : option string
}.

Definition accepted : ValidationResult := {| valid := true; error := None |}.
Definition rejected (msg : string) : ValidationResult :=
  {| valid := false; error := Some msg |}.

(** ** Validation *)

Definition bytesPerMB : Z := 1024 * 1024.

(** [fileSizeMB > DECART_CONFIG.limits.maxFileSizeMB] with
    [fileSizeMB = size / (1024 * 1024)]. *)
Definition fileTooLarge (f : FileRef) : bool :=
  (DECART_CONFIG.maxFileSizeMB * bytesPerMB <? size f)%Z.

(** [input.file.originalName.split('.').pop()?.toLowerCase()] *)
Definition fileExtension (name : string) : option string :=
  option_map Js.toLowerCase (Js.pop (Js.split "." name)).

(** [!fileExtension || !supportedFormats.includes(fileExtension)] *)
Definition unsupportedExtension (ext : option string) : bool :=
  match ext with
  | None => true
  | Some e => negb (Js.truthy e)
              || negb (Js.arrayIncludes DECART_CONFIG.supportedFormats e)
  end.

(** [!prompt || prompt.trim().length === 0] *)
Definition promptMissing (p : string) : bool :=
  negb (Js.truthy p) || (String.length (Js.trim p) =? 0)%nat.

Definition promptTooLong (p : string) : bool :=
  (DECART_CONFIG.maxPromptLength <? String.length p)%nat.

Definition msgModelCode (code : string) : string :=
  "Invalid model code: " ++ code ++ ". Expected: DecartVideo".
Definition msgNoFile : string := "Video file with signed URL required".
Definition msgTooLarge (f : FileRef) : string :=
  "File too large (" ++ Js.toFixed1 (size f) bytesPerMB ++ "MB max "
  ++ Js.numberToString DECART_CONFIG.maxFileSizeMB ++ "MB)".
Definition msgFileType (ext : option string) : string :=
  "Unsupported file type: " ++ Js.templateOpt ext ++ ". Allowed: "
  ++ Js.join ", " DECART_CONFIG.supportedFormats.
Definition msgPromptRequired : string := "Prompt is required for video transformation".
Definition msgPromptTooLong : string :=
  "Prompt too long (max " ++ Js.numberToString (Z.of_nat DECART_CONFIG.maxPromptLength)
  ++ " chars)".
Definition dquote : string := String "034"%char EmptyString.
Definition msgOrientation : string :=
  "Orientation must be either " ++ dquote ++ "landscape" ++ dquote
  ++ " or " ++ dquote ++ "portrait" ++ dquote.

Definition validateVideoInput (input : DecartVideoInput) : ValidationResult :=
  if negb (String.eqb (modelCode input) "DecartVideo") then
    rejected (msgModelCode (modelCode input))
  else
    match file input with
    | None => rejected msgNoFile
    | Some f =>
        if negb (Js.truthyOpt (signedUrl f)) then rejected msgNoFile
        else if fileTooLarge f then rejected (msgTooLarge f)
        else
          let ext := fileExtension (originalName f) in
          if unsupportedExtension ext then rejected (msgFileType ext)
          else if promptMissing (prompt input) then rejected msgPromptRequired
          else if promptTooLong (prompt input) then rejected msgPromptTooLong
          else if negb (Js.arrayIncludes ["landscape"; "portrait"] (orientation input))
               then rejected msgOrientation
          else accepted
    end.

Definition msgCsvRequired : string := "CSV file with prompts required".
Definition msgCsvEmpty : string := "CSV file must contain at least one prompt".
Definition msgEmptyRow (i : nat) : string :=
  "Empty prompt found at row " ++ Js.numberToString (Z.of_nat (i + 1)).
Definition msgLongRow (i : nat) : string :=
  "Prompt at row " ++ Js.numberToString (Z.of_nat (i + 1)) ++ " too long (max "
  ++ Js.numberToString (Z.of_nat DECART_CONFIG.maxPromptLength) ++ " chars)".

(** The [for] loop of [validateBatchInput] from index [i] on. *)
Fixpoint validatePrompts (ps : list string) (i : nat) : ValidationResult :=
  match ps with
  | [] => accepted
  | p :: rest =>
      if promptMissing p then rejected (msgEmptyRow i)
      else if promptTooLong p then rejected (msgLongRow i)
      else validatePrompts rest (S i)
  end.

Definition validateBatchInput (input : DecartBatchInput) : ValidationResult :=
  let videoValidation :=
    validateVideoInput {| modelCode := batch_modelCode input;
                          file := videoFile input;
                          prompt := "dummy";
                          orientation := batch_orientation input;
                          enhance_prompt := None |} in
  if negb (valid videoValidation) then videoValidation
  else
    match csvFile input with
    | None => rejected msgCsvRequired
    | Some csv =>
        match prompts csv with
        | None => rejected msgCsvRequired
        | Some ps =>
            if (List.length ps =? 0)%nat then rejected msgCsvEmpty
            else validatePrompts ps 0
        end
    end.

Definition getOutputDimensions (orientation : string) : DECART_CONFIG.OrientationEntry :=
  match DECART_CONFIG.orientations orientation with
  | Some e => e
  | None => DECART_CONFIG.landscape
  end.

(** ** Effects: exceptions, network, clock and random source *)

Inductive JsException :=
| JsError (name message : string)
| NonError.

Inductive Completion (A : Type) :=
| Normal (a : A)
| Throw (e : JsException).
Arguments Normal {A} a.
Arguments Throw {A} e.

Definition Blob := string.

(** A fetch [Response]: its status line and what reading its body as text
    or as a blob completes with. *)
Record Response := {
  status : Z;
  statusText : string;
  text : Completion string;
  blob : Completion Blob
}.

(** [response.ok]: the status is in the range 200-299. *)
Definition ok (r : Response) : bool :=
  ((200 <=? status r) && (status r <=? 299))%Z.

Inductive NetCall :=
| FetchGet (url : option string)
| FetchPost (url : string) (apiKeyHeader : option string)
            (data : Blob) (filename : string) (promptField : string).

(** The execution environment. [fetch n call] is what the [n]-th network
    call of the run (counting from 0) completes with; [Date_now n] and
    [Math_random36 n] are the [n]-th clock reading and the base-36
    rendering of the [n]-th random number. *)
Record Env := {
  DECART_API_KEY : option string;
  fetch : nat -> NetCall -> Completion Response;
  Date_now : nat -> Z;
  Math_random36 : nat -> string;
  typeErrorMessage : string
}.

Record World := {
  netlog : list NetCall;
  clockReads : nat;
  randomReads : nat
}.

Definition M (A : Type) : Type := World -> Completion A * World.

Definition ret {A} (a : A) : M A := fun w => (Normal a, w).
Definition throw {A} (e : JsException) : M A := fun w => (Throw e, w).
Definition bind {A B} (m : M A) (k : A -> M B) : M B :=
  fun w => match m w with
           | (Normal a, w') => k a w'
           | (Throw e, w') => (Throw e, w')
           end.
Definition tryCatch {A} (m : M A) (handler : JsException -> M A) : M A :=
  fun w => match m w with
           | (Normal a, w') => (Normal a, w')
           | (Throw e, w') => handler e w'
           end.
Definition await {A} (c : Completion A) : M A := fun w => (c, w).

Notation "x <- m ;; k" := (bind m (fun x => k))
  (at level 61, m at next level, right associativity).

Definition doFetch (env : Env) (call : NetCall) : M Response :=
  fun w => (fetch env (List.length (netlog w)) call,
            {| netlog := netlog w ++ [call];
               clockReads := clockReads w;
               randomReads := randomReads w |}).

Definition dateNow (env : Env) : M Z :=
  fun w => (Normal (Date_now env (clockReads w)),
            {| netlog := netlog w;
               clockReads := S (clockReads w);
               randomReads := randomReads w |}).

Definition mathRandom36 (env : Env) : M string :=
  fun w => (Normal (Math_random36 env (randomReads w)),
            {| netlog := netlog w;
               clockReads := clockReads w;
               randomReads := S (randomReads w) |}).

(** A property read on a possibly undefined object. *)
Definition deref {A} (env : Env) (o : option A) : M A :=
  match o with
  | Some a => ret a
  | None => throw (JsError "TypeError" (typeErrorMessage env))
  end.

(** [new Error(message)] *)
Definition newError (message : option string) : JsException :=
  JsError "Error" (match message with Some m => m | None => EmptyString end).

(** ** The provider *)

Definition isConfigured (env : Env) : bool := Js.truthyOpt (DECART_API_KEY env).

Definition generateSequentialFilename (env : Env) : M string :=
  timestamp <- dateNow env ;;
  random <- mathRandom36 env ;;
  ret ("output_" ++ Js.numberToString timestamp ++ "_"
       ++ String.substring 2 3 random ++ ".mp4").

(** The job identifier minted by [run]: the prefix, the clock reading and
    seven characters of a random number in base 36. *)
Definition jobToken (env : Env) (kind : string) : M string :=
  t <- dateNow env ;;
  r <- mathRandom36 env ;;
  ret (kind ++ Js.numberToString t ++ "_" ++ String.substring 2 7 r).

Definition msgNotConfigured : string := "Decart not configured - missing DECART_API_KEY".

(** [run]. In the batch branch the two [deref]s stand for the read of
    [input.csvFile.prompts.length] among the arguments of the log call. *)
Definition run (env : Env) (input : ProviderInput) : M ProviderRunResult :=
  if negb (isConfigured env) then throw (newError (Some msgNotConfigured))
  else
    match input with
    | BatchInput b =>
        let validation := validateBatchInput b in
        if negb (valid validation) then throw (newError (error validation))
        else
          jobId <- jobToken env "decart_batch_" ;;
          csv <- deref env (csvFile b) ;;
          _ <- deref env (prompts csv) ;;
          ret (Deferred jobId)
    | SingleInput s =>
        let validation := validateVideoInput s in
        if negb (valid validation) then throw (newError (error validation))
        else
          jobId <- jobToken env "decart_single_" ;;
          ret (Deferred jobId)
    end.

Definition apiPost (env : Env) (videoBlob : Blob) (prompt : string) : NetCall :=
  FetchPost DECART_CONFIG.endpoint (DECART_API_KEY env) videoBlob "input.mp4" prompt.

Definition msgApiError (r : Response) (errorText : string) : string :=
  "Decart API error (" ++ Js.numberToString (status r) ++ "): " ++ errorText.

Definition processSingleVideo (env : Env) (input : DecartVideoInput)
  : M ProviderStatusResult :=
  let dimensions := getOutputDimensions (orientation input) in
  f <- deref env (file input) ;;
  videoResponse <- doFetch env (FetchGet (signedUrl f)) ;;
  videoBlob <- await (blob videoResponse) ;;
  response <- doFetch env (apiPost env videoBlob (prompt input)) ;;
  if negb (ok response) then
    errorText <- await (text response) ;;
    throw (newError (Some (msgApiError response errorText)))
  else
    _ <- await (blob response) ;;
    outputFile <- generateSequentialFilename env ;;
    t <- dateNow env ;;
    ret (Succeeded (VideoOutput
      {| out_url := "/static/videos/processed_" ++ Js.numberToString t ++ ".mp4";
         out_format := "mp4";
         out_width := DECART_CONFIG.width dimensions;
         out_height := DECART_CONFIG.height dimensions;
         out_provider := "decart-video";
         out_model := "vid2vid";
         out_prompt := prompt input;
         out_orientation := orientation input;
         out_outputFile := Some outputFile |})).

Definition failureEntry (prompt reason : string) : BatchResult :=
  {| res_prompt := prompt; success := false; videoUrl := None;
     outputFile := None; res_error := Some reason |}.

Definition msgItemFailed (r : Response) : string :=
  "API request failed: " ++ Js.numberToString (status r).

(** The body of the [try] block of one batch iteration, returning the
    entry it pushes. *)
Definition batchAttempt (env : Env) (videoBlob : Blob) (i : nat) (prompt : string)
  : M BatchResult :=
  response <- doFetch env (apiPost env videoBlob prompt) ;;
  if ok response then
    outputFile <- generateSequentialFilename env ;;
    t <- dateNow env ;;
    ret {| res_prompt := prompt; success := true;
           videoUrl := Some ("/static/videos/batch_" ++ Js.numberToString t ++ "_"
                             ++ Js.numberToString (Z.of_nat i) ++ ".mp4");
           outputFile := Some outputFile; res_error := None |}
  else ret (failureEntry prompt (msgItemFailed response)).

Definition caughtMessage (e : JsException) : string :=
  match e with
  | JsError _ message => message
  | NonError => "Unknown error"
  end.

(** One iteration of the batch loop: the entry pushed for the raw prompt
    at index [i]. *)
Definition batchItem (env : Env) (videoBlob : Blob) (i : nat) (raw : string)
  : M BatchResult :=
  let prompt := Js.trim raw in
  if negb (Js.truthy prompt) then ret (failureEntry prompt "Empty prompt")
  else tryCatch (batchAttempt env videoBlob i prompt)
                (fun e => ret (failureEntry prompt (caughtMessage e))).

(** The [for] loop of [processBatch] from index [i] on, [results] being
    the array built so far. *)
Fixpoint batchLoop (env : Env) (videoBlob : Blob) (ps : list string) (i : nat)
  (results : list BatchResult) : M (list BatchResult) :=
  match ps with
  | [] => ret results
  | raw :: rest =>
      entry <- batchItem env videoBlob i raw ;;
      batchLoop env videoBlob rest (S i) (results ++ [entry])
  end.

(** [processBatch]. The shared video is fetched once, before the loop and
    outside any [try]; the prompt list is first read by the log call that
    follows the download. *)
Definition processBatch (env : Env) (input : DecartBatchInput)
  : M ProviderStatusResult :=
  f <- deref env (videoFile input) ;;
  videoResponse <- doFetch env (FetchGet (signedUrl f)) ;;
  videoBlob <- await (blob videoResponse) ;;
  csv <- deref env (csvFile input) ;;
  ps <- deref env (prompts csv) ;;
  results <- batchLoop env videoBlob ps 0 [] ;;
  let successCount := List.length (filter success results) in
  let failureCount := List.length results - successCount in
  ret (Succeeded (BatchResults
    {| totalProcessed := List.length results;
       successCount := successCount;
       failureCount := failureCount;
       results := results |})).

Definition msgAborted : string :=
  "Video processing timed out. Please try again with a smaller video.".
Definition msgSlow : string :=
  "Video processing is taking longer than expected. Please try again.".
Definition msgUnknown : string := "Unknown error occurred during video processing".

(** The [catch] clause of [result]. *)
Definition onProcessingError (e : JsException) : ProviderStatusResult :=
  match e with
  | JsError name message =>
      if String.eqb name "AbortError" then Failed msgAborted
      else Failed (if Js.includes message "timeout" then msgSlow
                   else "Video processing failed: " ++ message)
  | NonError => Failed msgUnknown
  end.

(** [result]. The guard [!jobId.startsWith('decart_') || !input] comes
    first; everything else runs inside the [try]. *)
Definition result (env : Env) (jobId : string) (input : option ProviderInput)
  : M ProviderStatusResult :=
  match input with
  | None => ret Running
  | Some request =>
      if negb (Js.startsWith jobId "decart_") then ret Running
      else
        tryCatch
          (match request with
           | BatchInput b => processBatch env b
           | SingleInput s => processSingleVideo env s
           end)
          (fun e => ret (onProcessingError e))
  end.

(** ** The single-video validator's contract, in the specification's words

    The seven checks are listed in the order the specification gives them;
    each one says when a request passes it and the reason reported when it
    does not. [firstFailure] walks the list and stops at the first check
    that fails. *)

Module Contract.

(** The last dot-segment of a file name: the text after its last dot, the
    whole name when it has none. *)
Fixpoint lastDotSegment (s : string) : string :=
  match s with
  | EmptyString => EmptyString
  | String c s' =>
      if Js.includes s' "." then lastDotSegment s'
      else if Ascii.eqb c "." then s' else s
  end.

Record Check := {
  passes : DecartVideoInput -> bool;
  reason : DecartVideoInput -> string
}.

Definition onFile (i : DecartVideoInput) {A} (dflt : A) (k : FileRef -> A) : A :=
  match file i with Some f => k f | None => dflt end.

Definition modelTagSupported : Check :=
  {| passes i := String.eqb (modelCode i) "DecartVideo";
     reason i := msgModelCode (modelCode i) |}.

Definition videoReferencePresent : Check :=
  {| passes i := onFile i false (fun f =>
       match signedUrl f with
       | Some u => negb (String.eqb u EmptyString)
       | None => false
       end);
     reason _ := msgNoFile |}.

Definition sizeWithinCeiling : Check :=
  {| passes i := onFile i true (fun f => (size f <=? 100 * (1024 * 1024))%Z);
     reason i := onFile i EmptyString msgTooLarge |}.

Definition extensionSupported : Check :=
  {| passes i := onFile i true (fun f =>
       existsb (String.eqb (Js.toLowerCase (lastDotSegment (originalName f))))
               ["mp4"; "avi"; "mov"; "mkv"; "webm"]);
     reason i := onFile i EmptyString (fun f =>
       msgFileType (Some (Js.toLowerCase (lastDotSegment (originalName f))))) |}.

Definition promptNonEmpty : Check :=
  {| passes i := negb (String.eqb (Js.trim (prompt i)) EmptyString);
     reason _ := msgPromptRequired |}.

Definition promptWithinCeiling : Check :=
  {| passes i := (String.length (prompt i) <=? 1000)%nat;
     reason _ := msgPromptTooLong |}.

Definition orientationKnown : Check :=
  {| passes i := String.eqb (orientation i) "landscape"
                 || String.eqb (orientation i) "portrait";
     reason _ := msgOrientation |}.

Definition checks : list Check :=
  [modelTagSupported; videoReferencePresent; sizeWithinCeiling;
   extensionSupported; promptNonEmpty; promptWithinCeiling; orientationKnown].

Fixpoint firstFailure (cs : list Check) (i : DecartVideoInput) : ValidationResult :=
  match cs with
  | [] => accepted
  | c :: cs' => if passes c i then firstFailure cs' i else rejected (reason c i)
  end.

End Contract.

(** ** What the batch loop is expected to record

    [attemptSucceeds env n call] tells whether the [n]-th network call of
    the run, when it is [call], completes with a 2xx response;
    [expectedFlags] lists that for the upstream calls of a batch whose
    first item is call number [n]. *)

Definition attemptSucceeds (env : Env) (n : nat) (call : NetCall) : bool :=
  match fetch env n call with
  | Normal r => ok r
  | Throw _ => false
  end.

Fixpoint expectedFlags (env : Env) (videoBlob : Blob) (ps : list string) (n : nat)
  : list bool :=
  match ps with
  | [] => []
  | raw :: rest =>
      attemptSucceeds env n (apiPost env videoBlob (Js.trim raw))
      :: expectedFlags env videoBlob rest (S n)
  end.

Definition countTrue (l : list bool) : nat := List.length (filter (fun b => b) l).
Definition countFalse (l : list bool) : nat := List.length (filter negb l).

(** The [BatchOutput] that [processBatch] builds from the array of entries. *)
Definition batchOutputOf (es : list BatchResult) : DecartBatchOutput :=
  {| totalProcessed := List.length es;
     successCount := List.length (filter success es);
     failureCount := List.length es - List.length (filter success es);
     results := es |}.

(** A failure entry carries a reason and no output; a success entry
    carries an output reference and no reason. *)
Definition carriesFailure (e : BatchResult) : Prop :=
  success e = false /\ (exists why, res_error e = Some why) /\ videoUrl e = None.

Definition carriesSuccess (e : BatchResult) : Prop :=
  success e = true /\ (exists u, videoUrl e = Some u) /\ res_error e = None.

Definition wellShaped (e : BatchResult) : Prop :=
  if success e then carriesSuccess e else carriesFailure e.

(** ** Sample requests and environments *)

Module Sample.

Definition world0 : World := {| netlog := []; clockReads := 0; randomReads := 0 |}.

Definition videoUrl0 : string := "https://cdn.example/source".

Definition mkFile (name : string) (bytes : Z) : FileRef :=
  {| path := "uploads/" ++ name; signedUrl := Some videoUrl0;
     mime := "video/mp4"; size := bytes; originalName := name |}.

Definition single (name : string) (bytes : Z) (p o : string) : DecartVideoInput :=
  {| modelCode := "DecartVideo"; prompt := p; orientation := o;
     enhance_prompt := None; file := Some (mkFile name bytes) |}.

Definition batch (ps : list string) : DecartBatchInput :=
  {| batch_modelCode := "DecartVideo"; batch_orientation := "landscape";
     batch_enhance_prompt := None;
     videoFile := Some (mkFile "clip.mp4" (40 * 1048576));
     csvFile := Some {| csv_path := "uploads/prompts.csv"; csv_signedUrl := None;
                        csv_mime := "text/csv"; csv_size := 64;
                        prompts := Some ps |} |}.

Definition response (code : Z) (body : string) : Response :=
  {| status := code; statusText := EmptyString;
     text := Normal body; blob := Normal body |}.

(** An environment whose [k]-th network call answers with status
    [codes k] and body ["payload"]. *)
Definition envWith (key : option string) (codes : nat -> Z) : Env :=
  {| DECART_API_KEY := key;
     fetch := fun n _ => Normal (response (codes n) "payload");
     Date_now := fun n => (1700000000000 + Z.of_nat n)%Z;
     Math_random36 := fun _ => "0.k3j9x2pq";
     typeErrorMessage := "Cannot read properties of undefined" |}.

Definition envAllOk (key : option string) : Env := envWith key (fun _ => 200%Z).

(** The second upstream call of a batch (network call 2) answers 500. *)
Definition envSecondItemFails : Env :=
  envWith (Some "key") (fun n => if (n =? 2)%nat then 500%Z else 200%Z).

(** Every upstream call answers 503; the video download (call 0) works. *)
Definition envUpstreamDown : Env :=
  envWith (Some "key") (fun n => if (n =? 0)%nat then 200%Z else 503%Z).

(** The video download (call 0) works; every upstream call answers with
    status [code] and text body [body]. *)
Definition envUpstreamAnswers (code : Z) (body : string) : Env :=
  {| DECART_API_KEY := Some "key";
     fetch := fun n _ =>
       if (n =? 0)%nat then Normal (response 200 "payload")
       else Normal (response code body);
     Date_now := fun n => (1700000000000 + Z.of_nat n)%Z;
     Math_random36 := fun _ => "0.k3j9x2pq";
     typeErrorMessage := "Cannot read properties of undefined" |}.

(** The download of the shared video is refused by the network. *)
Definition envNoDownload : Env :=
  {| DECART_API_KEY := Some "key";
     fetch := fun n _ =>
       if (n =? 0)%nat then Throw (JsError "TypeError" "fetch failed")
       else Normal (response 200 "payload");
     Date_now := fun n => (1700000000000 + Z.of_nat n)%Z;
     Math_random36 := fun _ => "0.k3j9x2pq";
     typeErrorMessage := "Cannot read properties of undefined" |}.

End Sample.

(** ** Requests derived from a batch, and the shape of what a batch leaves behind *)

(** The single request that applies prompt [p] to the shared video of a
    batch request. *)
Definition asSingle (b : DecartBatchInput) (p : string) : DecartVideoInput :=
  {| modelCode := batch_modelCode b; prompt := p;
     orientation := batch_orientation b;
     enhance_prompt := batch_enhance_prompt b;
     file := videoFile b |}.

(** The validator that [run] applies to a request of either kind. *)
Definition validateRequest (input : ProviderInput) : ValidationResult :=
  match input with
  | BatchInput b => validateBatchInput b
  | SingleInput s => validateVideoInput s
  end.

(** The prefix of the handle that [run] mints for a request. *)
Definition handlePrefix (input : ProviderInput) : string :=
  match input with
  | BatchInput _ => "decart_batch_"
  | SingleInput _ => "decart_single_"
  end.

(** The checks of the contract that do not look at the prompt. *)
Definition videoChecks : list Contract.Check :=
  [Contract.modelTagSupported; Contract.videoReferencePresent;
   Contract.sizeWithinCeiling; Contract.extensionSupported;
   Contract.orientationKnown].

(** A prompt that is empty once trimmed. *)
Definition isBlank (raw : string) : bool := negb (Js.truthy (Js.trim raw)).

Definition batchVideoUrl (t : Z) (i : nat) : string :=
  "/static/videos/batch_" ++ Js.numberToString t ++ "_"
  ++ Js.numberToString (Z.of_nat i) ++ ".mp4".

Definition sequentialFilename (t : Z) (random : string) : string :=
  "output_" ++ Js.numberToString t ++ "_" ++ String.substring 2 3 random ++ ".mp4".

(** What the batch loop records for the raw prompt at position [i]: a
    blank prompt gives the fixed failure entry; a success carries a URL
    ending in its position and a generated file name; a failure carries
    neither. *)
Definition itemRecorded (i : nat) (raw : string) (e : BatchResult) : Prop :=
  (isBlank raw = true -> e = failureEntry EmptyString "Empty prompt")
  /\ (success e = true ->
      exists t t' random,
        videoUrl e = Some (batchVideoUrl t i)
        /\ outputFile e = Some (sequentialFilename t' random))
  /\ (success e = false -> videoUrl e = None /\ outputFile e = None).

Module Scenario.

(** The video download (call 0) answers with status [code]; every later
    call answers 200. *)
Definition envDownloadAnswers (code : Z) (body : string) : Env :=
  {| DECART_API_KEY := Some "key";
     fetch := fun n _ =>
       if (n =? 0)%nat then Normal (Sample.response code body)
       else Normal (Sample.response 200 "payload");
     Date_now := fun n => (1700000000000 + Z.of_nat n)%Z;
     Math_random36 := fun _ => "0.k3j9x2pq";
     typeErrorMessage := "Cannot read properties of undefined" |}.

(** The video download works; every upstream call raises [e]. *)
Definition envUpstreamRaises (e : JsException) : Env :=
  {| DECART_API_KEY := Some "key";
     fetch := fun n _ =>
       if (n =? 0)%nat then Normal (Sample.response 200 "payload") else Throw e;
     Date_now := fun n => (1700000000000 + Z.of_nat n)%Z;
     Math_random36 := fun _ => "0.k3j9x2pq";
     typeErrorMessage := "Cannot read properties of undefined" |}.

Definition batchOn (o : string) (ps : option (list string)) : DecartBatchInput :=
  {| batch_modelCode := "DecartVideo"; batch_orientation := o;
     batch_enhance_prompt := None;
     videoFile := Some (Sample.mkFile "clip.mp4" (40 * 1048576));
     csvFile := Some {| csv_path := "uploads/prompts.csv"; csv_signedUrl := None;
                        csv_mime := "text/csv"; csv_size := 64;
                        prompts := ps |} |}.

End Scenario.

(** * Properties *)

(** Runs the monadic primitives of a pipeline on the current world. *)
Ltac run_step :=
  repeat progress
    (unfold deref, generateSequentialFilename;
     unfold bind, tryCatch, ret, throw, await, doFetch, dateNow, mathRandom36;
     cbn [netlog clockReads randomReads]).

(** ** Facts about the string primitives *)

Lemma prefix_empty (s : string) : String.prefix EmptyString s = true.
Proof. destruct s; reflexivity. Qed.

Lemma prefix_append (t b : string) : String.prefix t (t ++ b) = true.
Proof.
  induction t as [|a t IH]; simpl.
  - apply prefix_empty.
  - destruct (ascii_dec a a) as [_|Hne]; [exact IH | congruence].
Qed.

Lemma includes_prefix (s sub : string) :
  String.prefix sub s = true -> Js.includes s sub = true.
Proof. destruct s; simpl; intros ->; reflexivity. Qed.

Lemma includes_append (a t b : string) : Js.includes (a ++ t ++ b) t = true.
Proof.
  induction a as [|c a IH].
  - change (EmptyString ++ t ++ b) with (t ++ b).
    apply includes_prefix, prefix_append.
  - simpl. rewrite IH. apply orb_true_r.
Qed.

Lemma includes_suffix (a t : string) : Js.includes (a ++ t) t = true.
Proof.
  replace (a ++ t) with (a ++ t ++ EmptyString).
  - apply includes_append.
  - f_equal. induction t as [|c t IH]; simpl; congruence.
Qed.

Lemma includes_dot_cons (c : ascii) (s : string) :
  Js.includes (String c s) "." = Ascii.eqb c "." || Js.includes s ".".
Proof.
  cbn [Js.includes String.prefix].
  destruct (ascii_dec "." c) as [<-|Hne].
  - rewrite prefix_empty. reflexivity.
  - destruct (Ascii.eqb_spec c "."); [congruence | reflexivity].
Qed.

Lemma split_dotless (s : string) :
  Js.includes s "." = false -> Js.split "." s = [s].
Proof.
  induction s as [|c s IH]; intros H; [reflexivity|].
  rewrite includes_dot_cons in H. apply orb_false_elim in H as [Hc Hs].
  simpl. rewrite Hc, (IH Hs). reflexivity.
Qed.

Lemma split_dotted (s : string) :
  Js.includes s "." = true ->
  exists seg next rest, Js.split "." s = seg :: next :: rest.
Proof.
  induction s as [|c s IH]; intros H; [discriminate|].
  rewrite includes_dot_cons in H. simpl.
  destruct (Ascii.eqb c ".") eqn:Hc.
  - destruct (Js.includes s ".") eqn:Hs.
    + destruct (IH eq_refl) as (seg & next & rest & E). rewrite E. eauto.
    + rewrite (split_dotless s Hs). eauto.
  - simpl in H. destruct (IH H) as (seg & next & rest & E). rewrite E. eauto.
Qed.

Lemma lastDotSegment_dotless (s : string) :
  Js.includes s "." = false -> Contract.lastDotSegment s = s.
Proof.
  destruct s as [|c s]; intros H; [reflexivity|].
  rewrite includes_dot_cons in H. apply orb_false_elim in H as [Hc Hs].
  simpl. rewrite Hs, Hc. reflexivity.
Qed.

(** The code's [split('.').pop()] is the last dot-segment. *)
Lemma pop_split (s : string) :
  Js.pop (Js.split "." s) = Some (Contract.lastDotSegment s).
Proof.
  induction s as [|c s IH]; [reflexivity|].
  cbn [Js.split Contract.lastDotSegment].
  destruct (Js.includes s ".") eqn:Hs.
  - destruct (split_dotted s Hs) as (seg & next & rest & E).
    rewrite E in IH |- *. destruct (Ascii.eqb c "."); exact IH.
  - rewrite (split_dotless s Hs).
    destruct (Ascii.eqb c "."); reflexivity.
Qed.

Lemma length_zero_iff (s : string) :
  (String.length s =? 0)%nat = String.eqb s EmptyString.
Proof. destruct s; reflexivity. Qed.

Lemma promptMissing_spec (p : string) :
  promptMissing p = String.eqb (Js.trim p) EmptyString.
Proof.
  unfold promptMissing. rewrite length_zero_iff.
  destruct p; reflexivity.
Qed.

Lemma promptMissing_truthy (p : string) :
  promptMissing p = false -> Js.truthy (Js.trim p) = true.
Proof.
  rewrite promptMissing_spec. unfold Js.truthy. intros ->. reflexivity.
Qed.

(** ** The validator against its contract *)

Lemma fileExtension_lastDotSegment (name : string) :
  fileExtension name = Some (Js.toLowerCase (Contract.lastDotSegment name)).
Proof. unfold fileExtension. rewrite pop_split. reflexivity. Qed.

Lemma unsupportedExtension_spec (e : string) :
  unsupportedExtension (Some e)
  = negb (Js.arrayIncludes DECART_CONFIG.supportedFormats e).
Proof. destruct e; reflexivity. Qed.

Lemma fileTooLarge_spec (f : FileRef) :
  fileTooLarge f = negb (size f <=? 100 * (1024 * 1024))%Z.
Proof. unfold fileTooLarge. apply Z.ltb_antisym. Qed.

Lemma promptTooLong_spec (p : string) :
  promptTooLong p = negb (String.length p <=? 1000)%nat.
Proof. unfold promptTooLong. apply Nat.ltb_antisym. Qed.

Lemma validateVideoInput_firstFailure (input : DecartVideoInput) :
  validateVideoInput input = Contract.firstFailure Contract.checks input.
Proof.
  unfold validateVideoInput, Contract.checks.
  cbn [Contract.firstFailure Contract.passes Contract.reason
       Contract.modelTagSupported Contract.videoReferencePresent
       Contract.sizeWithinCeiling Contract.extensionSupported
       Contract.promptNonEmpty Contract.promptWithinCeiling
       Contract.orientationKnown].
  unfold Contract.onFile.
  destruct (String.eqb (modelCode input) "DecartVideo"); cbn [negb]; [|reflexivity].
  destruct (file input) as [f|]; [|reflexivity].
  destruct (signedUrl f) as [u|]; cbn [Js.truthyOpt negb]; [|reflexivity].
  unfold Js.truthy. destruct (String.eqb u EmptyString); cbn [negb]; [reflexivity|].
  rewrite fileTooLarge_spec.
  destruct (size f <=? 100 * (1024 * 1024))%Z; cbn [negb]; [|reflexivity].
  rewrite fileExtension_lastDotSegment, unsupportedExtension_spec.
  unfold Js.arrayIncludes, DECART_CONFIG.supportedFormats.
  destruct (existsb _ ["mp4"; "avi"; "mov"; "mkv"; "webm"]); cbn [negb]; [|reflexivity].
  rewrite promptMissing_spec.
  destruct (String.eqb (Js.trim (prompt input)) EmptyString); cbn [negb]; [reflexivity|].
  rewrite promptTooLong_spec.
  destruct (String.length (prompt input) <=? 1000)%nat; cbn [negb]; [|reflexivity].
  cbn [existsb]. rewrite orb_false_r.
  destruct (String.eqb (orientation input) "landscape"
            || String.eqb (orientation input) "portrait"); reflexivity.
Qed.

Lemma firstFailure_earliest (input : DecartVideoInput) (pre post : list Contract.Check)
  (c : Contract.Check) :
  forallb (fun d => Contract.passes d input) pre = true ->
  Contract.passes c input = false ->
  Contract.firstFailure (pre ++ c :: post) input = rejected (Contract.reason c input).
Proof.
  induction pre as [|d pre IH]; cbn [forallb app Contract.firstFailure]; intros Hpre Hc.
  - rewrite Hc. reflexivity.
  - apply andb_prop in Hpre as [Hd Hpre]. rewrite Hd. exact (IH Hpre Hc).
Qed.

Lemma validateVideoInput_valid_firstFailure (cs : list Contract.Check)
  (input : DecartVideoInput) :
  valid (Contract.firstFailure cs input) = true ->
  forallb (fun d => Contract.passes d input) cs = true.
Proof.
  induction cs as [|c cs IH]; cbn [Contract.firstFailure forallb]; intros H.
  - reflexivity.
  - destruct (Contract.passes c input); [exact (IH H) | discriminate].
Qed.

(** What an accepted single request looks like. *)
Lemma validateVideoInput_accepted (input : DecartVideoInput) :
  valid (validateVideoInput input) = true ->
  validateVideoInput input = accepted
  /\ (exists f url, file input = Some f /\ signedUrl f = Some url)
  /\ (orientation input = "landscape" \/ orientation input = "portrait").
Proof.
  intros H. split.
  - revert H. unfold validateVideoInput.
    repeat match goal with
           | |- context [if ?b then _ else _] => destruct b
           | |- context [match ?o with Some _ => _ | None => _ end] => destruct o
           end; cbn; congruence.
  - rewrite validateVideoInput_firstFailure in H.
    apply validateVideoInput_valid_firstFailure in H.
    cbn [forallb Contract.checks] in H.
    repeat (apply andb_prop in H as [? H]).
    split.
    + unfold Contract.videoReferencePresent, Contract.onFile in *.
      cbn [Contract.passes] in *.
      destruct (file input) as [f|]; [|discriminate].
      destruct (signedUrl f) as [u|] eqn:Hu; [|discriminate].
      exists f, u. split; [reflexivity | exact Hu].
    + match goal with
      | Ho : Contract.passes Contract.orientationKnown input = true |- _ =>
          cbn [Contract.passes Contract.orientationKnown] in Ho;
          apply orb_prop in Ho as [Ho|Ho]; apply String.eqb_eq in Ho; auto
      end.
Qed.

(** C5. The single-video validator runs the seven checks of the contract
    in the listed order and reports the reason of the first one that
    fails: it equals [firstFailure] over the ordered list; whenever a
    check fails and every earlier one passes, its reason is the one
    reported whatever the later checks say; and when the size check is the
    first to fail the reason embeds the size in MB rendered with one
    decimal. *)
Theorem validateVideoInput_first_failing_reason (input : DecartVideoInput) :
  validateVideoInput input = Contract.firstFailure Contract.checks input
  /\ (forall pre c post,
         Contract.checks = (pre ++ c :: post)%list ->
         forallb (fun d => Contract.passes d input) pre = true ->
         Contract.passes c input = false ->
         validateVideoInput input = rejected (Contract.reason c input))
  /\ (forall f,
         file input = Some f ->
         Contract.passes Contract.modelTagSupported input = true ->
         Contract.passes Contract.videoReferencePresent input = true ->
         Contract.passes Contract.sizeWithinCeiling input = false ->
         validateVideoInput input = rejected (msgTooLarge f)
         /\ Js.includes (msgTooLarge f) (Js.toFixed1 (size f) (1024 * 1024)) = true).
Proof.
  split; [apply validateVideoInput_firstFailure|].
  split.
  - intros pre c post E Hpre Hc.
    rewrite validateVideoInput_firstFailure, E.
    apply firstFailure_earliest; assumption.
  - intros f Hf H1 H2 H3. split.
    + rewrite validateVideoInput_firstFailure.
      change Contract.checks with
        ([Contract.modelTagSupported; Contract.videoReferencePresent]
           ++ Contract.sizeWithinCeiling
           :: [Contract.extensionSupported; Contract.promptNonEmpty;
               Contract.promptWithinCeiling; Contract.orientationKnown])%list.
      rewrite firstFailure_earliest.
      * cbn [Contract.reason Contract.sizeWithinCeiling].
        unfold Contract.onFile. rewrite Hf. reflexivity.
      * cbn [forallb]. rewrite H1, H2. reflexivity.
      * exact H3.
    + unfold msgTooLarge. apply includes_append.
Qed.

(** C5, at a request that violates the size, extension, prompt and
    orientation checks at once, and at one that violates the last three. *)
Lemma validateVideoInput_first_failing_reason_witness :
  validateVideoInput (Sample.single "clip.txt" (150 * 1048576 + 70000) "   " "diagonal")
  = rejected "File too large (150.1MB max 100MB)"
  /\ validateVideoInput (Sample.single "clip.txt" 4096 "   " "diagonal")
     = rejected "Unsupported file type: txt. Allowed: mp4, avi, mov, mkv, webm".
Proof.
  split.
  - pose (input := Sample.single "clip.txt" (150 * 1048576 + 70000) "   " "diagonal").
    destruct (validateVideoInput_first_failing_reason input) as (_ & _ & Hsize).
    destruct (Hsize (Sample.mkFile "clip.txt" (150 * 1048576 + 70000))) as [E _];
      [reflexivity | reflexivity | reflexivity | reflexivity | exact E].
  - pose (input := Sample.single "clip.txt" 4096 "   " "diagonal").
    destruct (validateVideoInput_first_failing_reason input) as (_ & Hfirst & _).
    apply (Hfirst [Contract.modelTagSupported; Contract.videoReferencePresent;
                   Contract.sizeWithinCeiling]
                  Contract.extensionSupported
                  [Contract.promptNonEmpty; Contract.promptWithinCeiling;
                   Contract.orientationKnown]);
      reflexivity.
Defined.

(** ** Names without a dot *)

Lemma fileExtension_dotless (name : string) :
  Js.includes name "." = false -> fileExtension name = Some (Js.toLowerCase name).
Proof.
  intros H. rewrite fileExtension_lastDotSegment, lastDotSegment_dotless by exact H.
  reflexivity.
Qed.

(** C10, as amended. When the file name contains no dot, the extension
    check uses the whole lowercased name as the extension: the name passes
    exactly when, lowercased, it is one of mp4, avi, mov, mkv, webm. For a
    request that passed the model, reference and size checks, validation
    then goes on to the prompt and orientation checks in the first case
    and rejects with the unsupported-file-type reason in the second. *)
Theorem dotless_name_format_check (name : string) :
  Js.includes name "." = false ->
  fileExtension name = Some (Js.toLowerCase name)
  /\ unsupportedExtension (fileExtension name)
     = negb (Js.arrayIncludes DECART_CONFIG.supportedFormats (Js.toLowerCase name))
  /\ (forall input f,
         file input = Some f -> originalName f = name ->
         modelCode input = "DecartVideo" ->
         Js.truthyOpt (signedUrl f) = true ->
         fileTooLarge f = false ->
         validateVideoInput input
         = if Js.arrayIncludes DECART_CONFIG.supportedFormats (Js.toLowerCase name)
           then Contract.firstFailure
                  [Contract.promptNonEmpty; Contract.promptWithinCeiling;
                   Contract.orientationKnown] input
           else rejected (msgFileType (Some (Js.toLowerCase name)))).
Proof.
  intros Hdot. pose proof (fileExtension_dotless name Hdot) as Hext.
  split; [exact Hext|]. split.
  - rewrite Hext. apply unsupportedExtension_spec.
  - intros input f Hf Hname Hcode Hurl Hsize.
    rewrite validateVideoInput_firstFailure.
    unfold Contract.checks.
    cbn [Contract.firstFailure Contract.passes Contract.reason
         Contract.modelTagSupported Contract.videoReferencePresent
         Contract.sizeWithinCeiling Contract.extensionSupported].
    unfold Contract.onFile. rewrite Hf, Hcode, Hname.
    rewrite lastDotSegment_dotless by exact Hdot.
    cbn [String.eqb Ascii.eqb Bool.eqb].
    destruct (signedUrl f) as [u|]; [|discriminate].
    cbn [Js.truthyOpt] in Hurl. unfold Js.truthy in Hurl. rewrite Hurl.
    rewrite fileTooLarge_spec in Hsize. apply negb_false_iff in Hsize. rewrite Hsize.
    reflexivity.
Qed.

(** C10, amended, at the dotless names [WebM] and [movie]. *)
Lemma dotless_name_format_check_witness :
  unsupportedExtension (fileExtension "WebM") = false
  /\ validateVideoInput (Sample.single "movie" 4096 "robot" "portrait")
     = rejected "Unsupported file type: movie. Allowed: mp4, avi, mov, mkv, webm".
Proof.
  split.
  - destruct (dotless_name_format_check "WebM" eq_refl) as (_ & H & _). exact H.
  - destruct (dotless_name_format_check "movie" eq_refl) as (_ & _ & H).
    apply (H (Sample.single "movie" 4096 "robot" "portrait")
             (Sample.mkFile "movie" 4096)); reflexivity.
Defined.

(** C10, as stated, fails: the dotless name [avi] is not [mp4] in any
    case, yet it passes the format check and the whole validation. *)
Lemma dotless_avi_is_accepted :
  Js.includes "avi" "." = false
  /\ Js.toLowerCase "avi" <> "mp4"
  /\ unsupportedExtension (fileExtension "avi") = false
  /\ validateVideoInput (Sample.single "avi" 4096 "robot" "portrait") = accepted.
Proof. repeat split; try reflexivity. discriminate. Qed.

(** ** Counting flags *)

Lemma countTrue_map_success (es : list BatchResult) :
  List.length (filter success es) = countTrue (map success es).
Proof.
  unfold countTrue. induction es as [|e es IH]; [reflexivity|].
  cbn [filter map]. destruct (success e); cbn [List.length]; congruence.
Qed.

Lemma countTrue_le (l : list bool) : countTrue l <= List.length l.
Proof. unfold countTrue. apply filter_length_le. Qed.

Lemma count_split (l : list bool) : countTrue l + countFalse l = List.length l.
Proof.
  unfold countTrue, countFalse.
  induction l as [|[|] l IH]; cbn [filter negb List.length]; lia.
Qed.

Lemma countTrue_all_true (l : list bool) :
  (forall j, j < List.length l -> nth j l true = true) -> countTrue l = List.length l.
Proof.
  unfold countTrue. induction l as [|b l IH]; intros H; [reflexivity|].
  pose proof (H 0 ltac:(cbn; lia)) as H0. cbn in H0. subst b.
  cbn [filter List.length]. f_equal. apply IH.
  intros j Hj. apply (H (S j)). cbn. lia.
Qed.

Lemma countTrue_all_false (l : list bool) :
  forallb negb l = true -> countTrue l = 0.
Proof.
  unfold countTrue. induction l as [|[|] l IH]; cbn; intros H;
    [reflexivity | discriminate | exact (IH H)].
Qed.

(** A list of flags that is false at position [m] and true elsewhere has
    all but one flag true. *)
Lemma countTrue_one_false (l : list bool) (m : nat) :
  m < List.length l ->
  (forall j, j < List.length l -> nth j l true = negb (j =? m)%nat) ->
  countTrue l = List.length l - 1.
Proof.
  revert m. induction l as [|b l IH]; intros m Hm H; [cbn in Hm; lia|].
  pose proof (H 0 ltac:(cbn; lia)) as H0. cbn [nth] in H0.
  destruct m as [|m].
  - cbn in H0. subst b. unfold countTrue. cbn [filter List.length].
    fold (countTrue l). rewrite countTrue_all_true; [lia|].
    intros j Hj. exact (H (S j) ltac:(cbn; lia)).
  - cbn in H0. subst b. unfold countTrue. cbn [filter List.length].
    fold (countTrue l). cbn in Hm.
    rewrite (IH m); [lia | lia |].
    intros j Hj. exact (H (S j) ltac:(cbn; lia)).
Qed.

(** ** The batch loop *)

Section BatchLoop.

Variable env : Env.
Variable videoBlob : Blob.

(** One iteration always yields an entry: nothing escapes the [try]. *)
Lemma batchItem_total (i : nat) (raw : string) (w : World) :
  exists e w',
    batchItem env videoBlob i raw w = (Normal e, w')
    /\ res_prompt e = Js.trim raw /\ wellShaped e.
Proof.
  unfold batchItem, batchAttempt. destruct (Js.truthy (Js.trim raw)); cbn [negb].
  - run_step. destruct (fetch env _ _) as [r|e].
    + destruct (ok r); run_step; do 2 eexists;
        (split; [reflexivity|]); (split; [reflexivity|]);
        unfold wellShaped, carriesSuccess, carriesFailure, failureEntry; cbn; eauto.
    + do 2 eexists; (split; [reflexivity|]); (split; [reflexivity|]).
      unfold wellShaped, carriesFailure, failureEntry; cbn; eauto.
  - run_step. do 2 eexists; (split; [reflexivity|]); (split; [reflexivity|]).
    unfold wellShaped, carriesFailure, failureEntry; cbn; eauto.
Qed.

(** An iteration on a prompt that is not blank performs exactly one
    upstream call, with the trimmed prompt, and records whether that call
    completed with a 2xx response. *)
Lemma batchItem_attempt (i : nat) (raw : string) (w : World) :
  Js.truthy (Js.trim raw) = true ->
  exists e w',
    batchItem env videoBlob i raw w = (Normal e, w')
    /\ success e = attemptSucceeds env (List.length (netlog w))
                                   (apiPost env videoBlob (Js.trim raw))
    /\ netlog w' = (netlog w ++ [apiPost env videoBlob (Js.trim raw)])%list.
Proof.
  intros Ht. unfold batchItem, batchAttempt, attemptSucceeds.
  rewrite Ht; cbn [negb]. run_step.
  destruct (fetch env _ _) as [r|e].
  - destruct (ok r); run_step; do 2 eexists; repeat split; reflexivity.
  - do 2 eexists; repeat split; reflexivity.
Qed.

(** The loop never raises; it appends one entry per remaining prompt, in
    order, each echoing the trimmed prompt. *)
Lemma batchLoop_total (ps : list string) :
  forall (i : nat) (acc : list BatchResult) (w : World),
  exists es w',
    batchLoop env videoBlob ps i acc w = (Normal (acc ++ es)%list, w')
    /\ map res_prompt es = map Js.trim ps
    /\ Forall wellShaped es.
Proof.
  induction ps as [|raw rest IH]; intros i acc w; cbn [batchLoop].
  - exists [], w. rewrite app_nil_r. repeat split; constructor.
  - destruct (batchItem_total i raw w) as (e & w1 & E & Hp & Hs).
    unfold bind at 1. rewrite E.
    destruct (IH (S i) (acc ++ [e])%list w1) as (es & w2 & E2 & Hps & Hss).
    exists (e :: es), w2. rewrite E2, <- app_assoc. cbn [app map].
    repeat split; [congruence | constructor; assumption].
Qed.

(** When no remaining prompt is blank, the loop performs one upstream
    call per prompt, in input order, whatever the earlier calls
    completed with, and the success flags are those of the calls. *)
Lemma batchLoop_attempts (ps : list string) :
  Forall (fun p => Js.truthy (Js.trim p) = true) ps ->
  forall (i : nat) (acc : list BatchResult) (w : World) es w',
    batchLoop env videoBlob ps i acc w = (Normal (acc ++ es)%list, w') ->
    map success es = expectedFlags env videoBlob ps (List.length (netlog w))
    /\ netlog w'
       = (netlog w ++ map (fun p => apiPost env videoBlob (Js.trim p)) ps)%list.
Proof.
  induction 1 as [|raw rest Hraw _ IH]; intros i acc w es w'; cbn [batchLoop].
  - unfold ret. intros E. injection E as E <-.
    assert (es = []) as ->
      by (apply (app_inv_head acc); rewrite app_nil_r; symmetry; exact E).
    cbn. rewrite app_nil_r. split; reflexivity.
  - destruct (batchItem_attempt i raw w Hraw) as (e & w1 & E1 & Hs & Hlog).
    unfold bind at 1. rewrite E1. intros E.
    destruct (batchLoop_total rest (S i) (acc ++ [e])%list w1) as (es' & w2 & E2 & _).
    rewrite E2 in E. injection E as E <-.
    rewrite <- app_assoc in E. apply app_inv_head in E. subst es.
    destruct (IH (S i) (acc ++ [e])%list w1 es' w2 E2) as [Hflags Hnet].
    cbn [map expectedFlags app]. split.
    + rewrite Hs, Hflags, Hlog, length_app. cbn [List.length].
      rewrite Nat.add_1_r. reflexivity.
    + rewrite Hnet, Hlog, <- app_assoc. reflexivity.
Qed.

End BatchLoop.

(** ** Accepted batch requests *)

Lemma validatePrompts_accepted (ps : list string) :
  forall i, valid (validatePrompts ps i) = true ->
            Forall (fun p => Js.truthy (Js.trim p) = true) ps.
Proof.
  induction ps as [|p ps IH]; intros i H; [constructor|].
  cbn [validatePrompts] in H.
  destruct (promptMissing p) eqn:Hp; [discriminate|].
  destruct (promptTooLong p); [discriminate|].
  constructor; [exact (promptMissing_truthy p Hp) | exact (IH _ H)].
Qed.

Lemma validateBatchInput_accepted (b : DecartBatchInput) :
  valid (validateBatchInput b) = true ->
  exists f url csv ps,
    videoFile b = Some f /\ signedUrl f = Some url
    /\ csvFile b = Some csv /\ prompts csv = Some ps
    /\ ps <> [] /\ Forall (fun p => Js.truthy (Js.trim p) = true) ps.
Proof.
  unfold validateBatchInput.
  destruct (valid (validateVideoInput _)) eqn:Hv; cbn [negb]; [|congruence].
  apply validateVideoInput_accepted in Hv as (_ & (f & url & Hf & Hurl) & _).
  cbn [file] in Hf.
  destruct (csvFile b) as [csv|]; [|discriminate].
  destruct (prompts csv) as [ps|] eqn:Hps; [|discriminate].
  destruct ps as [|p ps]; [discriminate|]. cbn [List.length Nat.eqb].
  intros H. exists f, url, csv, (p :: ps).
  repeat split; try assumption; try reflexivity; [discriminate|].
  exact (validatePrompts_accepted _ _ H).
Qed.

(** ** The batch pipeline *)

(** Once the shared video has been downloaded and the prompt list read,
    the pipeline completes with a succeeded outcome. *)
Lemma processBatch_completes (env : Env) (b : DecartBatchInput) (w : World)
  (f : FileRef) (csv : CsvFile) (ps : list string) (vr : Response) (vb : Blob) :
  videoFile b = Some f ->
  csvFile b = Some csv -> prompts csv = Some ps ->
  fetch env (List.length (netlog w)) (FetchGet (signedUrl f)) = Normal vr ->
  blob vr = Normal vb ->
  exists es w',
    processBatch env b w = (Normal (Succeeded (BatchResults (batchOutputOf es))), w')
    /\ map res_prompt es = map Js.trim ps
    /\ Forall wellShaped es
    /\ (Forall (fun p => Js.truthy (Js.trim p) = true) ps ->
        map success es = expectedFlags env vb ps (S (List.length (netlog w)))
        /\ netlog w'
           = (netlog w ++ FetchGet (signedUrl f)
                :: map (fun p => apiPost env vb (Js.trim p)) ps)%list).
Proof.
  intros Hf Hcsv Hps Hfetch Hblob.
  pose (w1 := {| netlog := (netlog w ++ [FetchGet (signedUrl f)])%list;
                 clockReads := clockReads w; randomReads := randomReads w |}).
  destruct (batchLoop_total env vb ps 0 [] w1) as (es & w' & E & Hprompts & Hshape).
  exists es, w'.
  assert (Hrun : processBatch env b w
                 = (Normal (Succeeded (BatchResults (batchOutputOf es))), w')).
  { unfold processBatch. rewrite Hf, Hcsv. run_step.
    rewrite Hfetch, Hblob, Hps. run_step. fold w1. rewrite E. reflexivity. }
  split; [exact Hrun|]. split; [exact Hprompts|]. split; [exact Hshape|].
  intros Hall.
  destruct (batchLoop_attempts env vb ps Hall 0 [] w1 es w' E) as [Hflags Hnet].
  subst w1. cbn [netlog] in Hflags, Hnet.
  rewrite length_app in Hflags. cbn [List.length] in Hflags.
  rewrite Nat.add_1_r in Hflags.
  split; [exact Hflags|]. rewrite Hnet, <- app_assoc. reflexivity.
Qed.

Lemma batchOutputOf_accounting (es : list BatchResult) :
  successCount (batchOutputOf es) = countTrue (map success es)
  /\ failureCount (batchOutputOf es) = countFalse (map success es)
  /\ successCount (batchOutputOf es) + failureCount (batchOutputOf es)
     = totalProcessed (batchOutputOf es).
Proof.
  cbn [batchOutputOf successCount failureCount totalProcessed].
  rewrite countTrue_map_success.
  pose proof (count_split (map success es)) as H.
  rewrite length_map in H. repeat split; lia.
Qed.

(** C8. Whenever a batch run returns a [BatchOutput], its counts add up
    to [totalProcessed], which is the number of input prompts, and entry
    [i] echoes input prompt [i] trimmed. The run does return one as soon
    as the shared video has been downloaded and the prompt list read. *)
Theorem batch_output_accounting (env : Env) (b : DecartBatchInput) (w : World) :
  (forall bo w',
      processBatch env b w = (Normal (Succeeded (BatchResults bo)), w') ->
      exists csv ps,
        csvFile b = Some csv /\ prompts csv = Some ps
        /\ successCount bo + failureCount bo = totalProcessed bo
        /\ totalProcessed bo = List.length ps
        /\ List.length (results bo) = List.length ps
        /\ map res_prompt (results bo) = map Js.trim ps)
  /\ (forall f csv ps vr vb,
         videoFile b = Some f ->
         csvFile b = Some csv -> prompts csv = Some ps ->
         fetch env (List.length (netlog w)) (FetchGet (signedUrl f)) = Normal vr ->
         blob vr = Normal vb ->
         exists bo w',
           processBatch env b w = (Normal (Succeeded (BatchResults bo)), w')).
Proof.
  split.
  - intros bo w' Hrun.
    destruct (videoFile b) as [f|] eqn:Hf;
      [|unfold processBatch in Hrun; rewrite Hf in Hrun; discriminate].
    destruct (fetch env (List.length (netlog w)) (FetchGet (signedUrl f)))
      as [vr|e] eqn:Hfetch;
      [|unfold processBatch in Hrun; rewrite Hf in Hrun; revert Hrun; run_step;
        rewrite Hfetch; discriminate].
    destruct (blob vr) as [vb|e] eqn:Hblob;
      [|unfold processBatch in Hrun; rewrite Hf in Hrun; revert Hrun; run_step;
        rewrite Hfetch, Hblob; discriminate].
    destruct (csvFile b) as [csv|] eqn:Hcsv;
      [|unfold processBatch in Hrun; rewrite Hf, Hcsv in Hrun; revert Hrun; run_step;
        rewrite Hfetch, Hblob; discriminate].
    destruct (prompts csv) as [ps|] eqn:Hps;
      [|unfold processBatch in Hrun; rewrite Hf, Hcsv in Hrun; revert Hrun; run_step;
        rewrite Hfetch, Hblob, Hps; run_step; discriminate].
    destruct (processBatch_completes env b w f csv ps vr vb Hf Hcsv Hps Hfetch Hblob)
      as (es & w2 & E & Hprompts & _).
    rewrite E in Hrun. injection Hrun as <- _.
    exists csv, ps.
    destruct (batchOutputOf_accounting es) as (_ & _ & Hsum).
    assert (Hlen : List.length es = List.length ps)
      by (rewrite <- (length_map res_prompt es), Hprompts; apply length_map).
    repeat split; try assumption; try reflexivity; exact Hlen.
  - intros f csv ps vr vb Hf Hcsv Hps Hfetch Hblob.
    destruct (processBatch_completes env b w f csv ps vr vb Hf Hcsv Hps Hfetch Hblob)
      as (es & w2 & E & _).
    eauto.
Qed.

Lemma entry_at (es : list BatchResult) (flags : list bool) (ps : list string) (j : nat) :
  map success es = flags ->
  map res_prompt es = map Js.trim ps ->
  Forall wellShaped es ->
  j < List.length ps ->
  exists e,
    nth_error es j = Some e
    /\ success e = nth j flags true
    /\ res_prompt e = Js.trim (nth j ps EmptyString)
    /\ wellShaped e.
Proof.
  intros Hflags Hprompts Hshape Hj.
  assert (Hlen : List.length es = List.length ps)
    by (rewrite <- (length_map res_prompt es), Hprompts; apply length_map).
  destruct (nth_error es j) as [e|] eqn:He;
    [|apply nth_error_None in He; lia].
  exists e. split; [reflexivity|]. split; [|split].
  - subst flags. symmetry. apply nth_error_nth.
    rewrite nth_error_map, He. reflexivity.
  - rewrite <- (map_nth Js.trim ps EmptyString j), <- Hprompts.
    symmetry. apply nth_error_nth.
    rewrite nth_error_map, He. reflexivity.
  - apply nth_error_In in He. rewrite Forall_forall in Hshape. auto.
Qed.

(** C1, as amended. For every accepted batch request with N prompts whose
    shared video has been downloaded, the pipeline performs one upstream
    call per prompt, in input order, whatever the earlier calls completed
    with, and returns a [BatchOutput] with [totalProcessed = N], one entry
    per prompt in input order, [successCount] the number of successful
    entries and [failureCount] the number of failed ones. When the call of
    item [k] (counting from 1) is the only one that does not complete with
    a 2xx response, [successCount = N - 1], [failureCount = 1], entry
    [k - 1] carries the failure and every other entry is a success. *)
Theorem batch_isolates_item_failures (env : Env) (b : DecartBatchInput) (w : World)
  (f : FileRef) (vr : Response) (vb : Blob) :
  valid (validateBatchInput b) = true ->
  videoFile b = Some f ->
  fetch env (List.length (netlog w)) (FetchGet (signedUrl f)) = Normal vr ->
  blob vr = Normal vb ->
  exists csv ps bo w',
    csvFile b = Some csv /\ prompts csv = Some ps
    /\ processBatch env b w = (Normal (Succeeded (BatchResults bo)), w')
    /\ netlog w'
       = (netlog w ++ FetchGet (signedUrl f)
            :: map (fun p => apiPost env vb (Js.trim p)) ps)%list
    /\ totalProcessed bo = List.length ps
    /\ List.length (results bo) = List.length ps
    /\ map res_prompt (results bo) = map Js.trim ps
    /\ map success (results bo)
       = expectedFlags env vb ps (S (List.length (netlog w)))
    /\ Forall wellShaped (results bo)
    /\ successCount bo = countTrue (map success (results bo))
    /\ failureCount bo = countFalse (map success (results bo))
    /\ (forall k,
          1 <= k <= List.length ps ->
          (forall j, j < List.length ps ->
                     nth j (expectedFlags env vb ps (S (List.length (netlog w)))) true
                     = negb (j =? k - 1)%nat) ->
          successCount bo = List.length ps - 1
          /\ failureCount bo = 1
          /\ (exists e, nth_error (results bo) (k - 1) = Some e
                        /\ carriesFailure e
                        /\ res_prompt e = Js.trim (nth (k - 1) ps EmptyString))
          /\ (forall j e, j <> k - 1 -> nth_error (results bo) j = Some e ->
                          carriesSuccess e)).
Proof.
  intros Hvalid Hf Hfetch Hblob.
  destruct (validateBatchInput_accepted b Hvalid)
    as (f' & url & csv & ps & Hf' & _ & Hcsv & Hps & _ & Hall).
  destruct (processBatch_completes env b w f csv ps vr vb Hf Hcsv Hps Hfetch Hblob)
    as (es & w' & Hrun & Hprompts & Hshape & Hattempts).
  destruct (Hattempts Hall) as [Hflags Hnet].
  destruct (batchOutputOf_accounting es) as (Hsucc & Hfail & Hsum).
  assert (Hlen : List.length es = List.length ps)
    by (rewrite <- (length_map res_prompt es), Hprompts; apply length_map).
  exists csv, ps, (batchOutputOf es), w'.
  repeat (split; [first [assumption | reflexivity]|]).
  intros k Hk Honly.
  assert (Hcount : countTrue (map success es) = List.length ps - 1).
  { rewrite Hflags in *. rewrite <- Hlen, <- (length_map success es), Hflags.
    apply (countTrue_one_false _ (k - 1)).
    - rewrite <- Hflags, length_map. lia.
    - intros j Hj. apply Honly. rewrite <- Hflags, length_map in Hj. lia. }
  split; [rewrite Hsucc; exact Hcount|].
  split.
  { pose proof (count_split (map success es)) as Hs.
    rewrite length_map in Hs. rewrite Hfail. lia. }
  split.
  - destruct (entry_at es _ ps (k - 1) Hflags Hprompts Hshape ltac:(lia))
      as (e & He & Hsuccess & Hprompt & Hwell).
    exists e. split; [exact He|]. split; [|exact Hprompt].
    rewrite Honly, Nat.eqb_refl in Hsuccess by lia. cbn [negb] in Hsuccess.
    unfold wellShaped in Hwell. rewrite Hsuccess in Hwell. exact Hwell.
  - intros j e Hj He. cbn [results batchOutputOf] in He.
    assert (Hjlt : j < List.length ps)
      by (rewrite <- Hlen; apply nth_error_Some; congruence).
    destruct (entry_at es _ ps j Hflags Hprompts Hshape Hjlt)
      as (e' & He' & Hsuccess & _ & Hwell).
    rewrite He in He'. injection He' as <-.
    rewrite (Honly j Hjlt) in Hsuccess.
    apply Nat.eqb_neq in Hj. rewrite Hj in Hsuccess. cbn [negb] in Hsuccess.
    unfold wellShaped in Hwell. rewrite Hsuccess in Hwell. exact Hwell.
Qed.

(** C1, amended, at a batch of three prompts whose second upstream call
    answers 500. *)
Lemma batch_isolates_item_failures_witness :
  exists bo w',
    processBatch Sample.envSecondItemFails (Sample.batch [" a"; "b "; "c"]) Sample.world0
    = (Normal (Succeeded (BatchResults bo)), w')
    /\ totalProcessed bo = 3 /\ successCount bo = 2 /\ failureCount bo = 1
    /\ map res_prompt (results bo) = ["a"; "b"; "c"]
    /\ (exists e, nth_error (results bo) 1 = Some e /\ carriesFailure e).
Proof.
  destruct (batch_isolates_item_failures
              Sample.envSecondItemFails (Sample.batch [" a"; "b "; "c"]) Sample.world0
              (Sample.mkFile "clip.mp4" (40 * 1048576))
              (Sample.response 200 "payload") "payload"
              eq_refl eq_refl eq_refl eq_refl)
    as (csv & ps & bo & w' & Hcsv & Hps & Hrun & _ & Htotal & _ & Hprompts & _ & _ & _ & _ & Hk).
  cbn in Hcsv. injection Hcsv as <-. cbn in Hps. injection Hps as <-.
  destruct (Hk 2) as (Hs & Hf & (e & He & Hfail & _) & _).
  - cbn. lia.
  - intros [|[|[|j]]] Hj; try reflexivity. cbn in Hj. lia.
  - exists bo, w'. repeat split; try assumption. exists e. split; assumption.
Defined.

(** C1, as stated, fails: for an accepted batch request whose shared video
    cannot be downloaded, the pipeline raises after that one network call;
    no prompt is attempted and no [BatchOutput] is returned. *)
Lemma batch_without_download_attempts_nothing :
  valid (validateBatchInput (Sample.batch ["a"; "b"])) = true
  /\ processBatch Sample.envNoDownload (Sample.batch ["a"; "b"]) Sample.world0
     = (Throw (JsError "TypeError" "fetch failed"),
        {| netlog := [FetchGet (Some Sample.videoUrl0)];
           clockReads := 0; randomReads := 0 |}).
Proof. split; reflexivity. Qed.

(** ** Polling *)

Lemma result_passes_normal (env : Env) (jobId : string) (request : ProviderInput)
  (w w' : World) (r : ProviderStatusResult) :
  Js.startsWith jobId "decart_" = true ->
  match request with
  | BatchInput b => processBatch env b
  | SingleInput s => processSingleVideo env s
  end w = (Normal r, w') ->
  result env jobId (Some request) w = (Normal r, w').
Proof.
  intros Hid Hrun. unfold result. rewrite Hid. cbn [negb].
  unfold tryCatch. rewrite Hrun. reflexivity.
Qed.

Lemma result_converts_throw (env : Env) (jobId : string) (request : ProviderInput)
  (w w' : World) (e : JsException) :
  Js.startsWith jobId "decart_" = true ->
  match request with
  | BatchInput b => processBatch env b
  | SingleInput s => processSingleVideo env s
  end w = (Throw e, w') ->
  result env jobId (Some request) w = (Normal (onProcessingError e), w').
Proof.
  intros Hid Hrun. unfold result. rewrite Hid. cbn [negb].
  unfold tryCatch. rewrite Hrun. reflexivity.
Qed.

(** When the download of the shared video raises, the batch pipeline
    raises the same exception right after that call. *)
Lemma processBatch_download_raises (env : Env) (b : DecartBatchInput) (w : World)
  (f : FileRef) (e : JsException) :
  videoFile b = Some f ->
  fetch env (List.length (netlog w)) (FetchGet (signedUrl f)) = Throw e ->
  processBatch env b w
  = (Throw e, {| netlog := (netlog w ++ [FetchGet (signedUrl f)])%list;
                 clockReads := clockReads w; randomReads := randomReads w |}).
Proof.
  intros Hf Hfetch. unfold processBatch. rewrite Hf. run_step.
  rewrite Hfetch. reflexivity.
Qed.

(** C2, as amended. For every accepted batch request whose shared video
    has been downloaded, polling returns the terminal outcome [Succeeded]
    wrapping the full [BatchOutput], whatever the upstream calls of the
    items completed with; when none of them completed with a 2xx response
    the outcome is still [Succeeded], with [successCount = 0],
    [failureCount] the number of prompts and every entry a failure. *)
Theorem batch_poll_succeeds_whatever_items_do (env : Env) (jobId : string)
  (b : DecartBatchInput) (w : World) (f : FileRef) (vr : Response) (vb : Blob) :
  Js.startsWith jobId "decart_" = true ->
  valid (validateBatchInput b) = true ->
  videoFile b = Some f ->
  fetch env (List.length (netlog w)) (FetchGet (signedUrl f)) = Normal vr ->
  blob vr = Normal vb ->
  exists csv ps bo w',
    csvFile b = Some csv /\ prompts csv = Some ps
    /\ result env jobId (Some (BatchInput b)) w
       = (Normal (Succeeded (BatchResults bo)), w')
    /\ totalProcessed bo = List.length ps
    /\ List.length (results bo) = List.length ps
    /\ map success (results bo)
       = expectedFlags env vb ps (S (List.length (netlog w)))
    /\ successCount bo + failureCount bo = totalProcessed bo
    /\ (forallb negb (expectedFlags env vb ps (S (List.length (netlog w)))) = true ->
        successCount bo = 0
        /\ failureCount bo = List.length ps
        /\ Forall carriesFailure (results bo)).
Proof.
  intros Hid Hvalid Hf Hfetch Hblob.
  destruct (validateBatchInput_accepted b Hvalid)
    as (f' & url & csv & ps & Hf' & _ & Hcsv & Hps & _ & Hall).
  destruct (processBatch_completes env b w f csv ps vr vb Hf Hcsv Hps Hfetch Hblob)
    as (es & w' & Hrun & Hprompts & Hshape & Hattempts).
  destruct (Hattempts Hall) as [Hflags _].
  destruct (batchOutputOf_accounting es) as (Hsucc & Hfail & Hsum).
  assert (Hlen : List.length es = List.length ps)
    by (rewrite <- (length_map res_prompt es), Hprompts; apply length_map).
  exists csv, ps, (batchOutputOf es), w'.
  split; [exact Hcsv|]. split; [exact Hps|].
  split; [apply result_passes_normal; assumption|].
  repeat (split; [first [assumption | reflexivity]|]).
  intros Hnone. rewrite <- Hflags in Hnone.
  pose proof (countTrue_all_false _ Hnone) as Hzero.
  pose proof (count_split (map success es)) as Hs. rewrite length_map in Hs.
  split; [lia|]. split; [lia|].
  cbn [results batchOutputOf].
  rewrite Forall_forall in Hshape |- *. intros e He.
  specialize (Hshape e He). unfold wellShaped in Hshape.
  rewrite forallb_forall in Hnone.
  specialize (Hnone (success e) (in_map success es e He)).
  apply negb_true_iff in Hnone. rewrite Hnone in Hshape. exact Hshape.
Qed.

(** C2, amended, at a batch of two prompts whose upstream calls all
    answer 503. *)
Lemma batch_poll_succeeds_whatever_items_do_witness :
  exists bo w',
    result Sample.envUpstreamDown "decart_batch_1700000000000_k3j9x2p"
           (Some (BatchInput (Sample.batch ["a"; "b"]))) Sample.world0
    = (Normal (Succeeded (BatchResults bo)), w')
    /\ totalProcessed bo = 2 /\ successCount bo = 0 /\ failureCount bo = 2.
Proof.
  destruct (batch_poll_succeeds_whatever_items_do
              Sample.envUpstreamDown "decart_batch_1700000000000_k3j9x2p"
              (Sample.batch ["a"; "b"]) Sample.world0
              (Sample.mkFile "clip.mp4" (40 * 1048576))
              (Sample.response 200 "payload") "payload"
              eq_refl eq_refl eq_refl eq_refl eq_refl)
    as (csv & ps & bo & w' & Hcsv & Hps & Hrun & Htotal & _ & _ & _ & Hnone).
  cbn in Hcsv. injection Hcsv as <-. cbn in Hps. injection Hps as <-.
  destruct (Hnone eq_refl) as (Hs & Hf & _).
  exists bo, w'. repeat split; assumption.
Defined.

(** C2, as stated, fails: for an accepted batch request whose shared video
    cannot be downloaded, polling returns the terminal outcome [Failed]. *)
Lemma batch_poll_fails_without_download :
  valid (validateBatchInput (Sample.batch ["a"; "b"])) = true
  /\ result Sample.envNoDownload "decart_batch_1700000000000_k3j9x2p"
            (Some (BatchInput (Sample.batch ["a"; "b"]))) Sample.world0
     = (Normal (Failed "Video processing failed: fetch failed"),
        {| netlog := [FetchGet (Some Sample.videoUrl0)];
           clockReads := 0; randomReads := 0 |}).
Proof. split; reflexivity. Qed.

(** C8, at a batch whose raw prompts carry surrounding blanks. *)
Lemma batch_output_accounting_witness :
  exists bo w',
    processBatch Sample.envSecondItemFails (Sample.batch [" a"; "b "; "c"]) Sample.world0
    = (Normal (Succeeded (BatchResults bo)), w')
    /\ successCount bo + failureCount bo = totalProcessed bo
    /\ totalProcessed bo = 3
    /\ map res_prompt (results bo) = ["a"; "b"; "c"].
Proof.
  destruct (batch_output_accounting
              Sample.envSecondItemFails (Sample.batch [" a"; "b "; "c"]) Sample.world0)
    as [Hany Hsome].
  destruct (Hsome (Sample.mkFile "clip.mp4" (40 * 1048576))
                  {| csv_path := "uploads/prompts.csv"; csv_signedUrl := None;
                     csv_mime := "text/csv"; csv_size := 64;
                     prompts := Some [" a"; "b "; "c"] |}
                  [" a"; "b "; "c"]
                  (Sample.response 200 "payload") "payload"
                  eq_refl eq_refl eq_refl eq_refl eq_refl)
    as (bo & w' & Hrun).
  destruct (Hany bo w' Hrun) as (csv & ps & Hcsv & Hps & Hsum & Htotal & _ & Hprompts).
  cbn in Hcsv. injection Hcsv as <-. cbn in Hps. injection Hps as <-.
  exists bo, w'. repeat split; assumption.
Defined.

(** C7. Polling with a job handle that does not start with [decart_], or
    without the original request, returns the non-terminal outcome
    [Running]; it raises nothing and touches nothing. *)
Theorem poll_unrecognized_is_running (env : Env) (jobId : string)
  (input : option ProviderInput) (w : World) :
  Js.startsWith jobId "decart_" = false \/ input = None ->
  result env jobId input w = (Normal Running, w).
Proof.
  intros [Hid | ->]; unfold result.
  - destruct input; [rewrite Hid|]; reflexivity.
  - reflexivity.
Qed.

(** C7, at a foreign handle with a full request, and at a handle of the
    provider without a request. *)
Lemma poll_unrecognized_is_running_witness :
  result (Sample.envAllOk (Some "key")) "replicate_8841"
         (Some (SingleInput (Sample.single "clip.mov" 4096 "robot" "portrait")))
         Sample.world0
  = (Normal Running, Sample.world0)
  /\ result (Sample.envAllOk (Some "key")) "decart_single_1700000000000_k3j9x2p"
            None Sample.world0
     = (Normal Running, Sample.world0).
Proof.
  split.
  - apply poll_unrecognized_is_running. left. reflexivity.
  - apply poll_unrecognized_is_running. right. reflexivity.
Defined.

(** ** The single-video pipeline *)

Lemma length_snoc {A} (l : list A) (x : A) :
  List.length (l ++ [x])%list = S (List.length l).
Proof. rewrite length_app. cbn. lia. Qed.

Lemma processSingleVideo_succeeds (env : Env) (s : DecartVideoInput) (w : World)
  (f : FileRef) (vr r : Response) (vb pb : Blob) :
  file s = Some f ->
  fetch env (List.length (netlog w)) (FetchGet (signedUrl f)) = Normal vr ->
  blob vr = Normal vb ->
  fetch env (S (List.length (netlog w))) (apiPost env vb (prompt s)) = Normal r ->
  ok r = true ->
  blob r = Normal pb ->
  exists o w',
    processSingleVideo env s w = (Normal (Succeeded (VideoOutput o)), w')
    /\ out_format o = "mp4"
    /\ out_width o = DECART_CONFIG.width (getOutputDimensions (orientation s))
    /\ out_height o = DECART_CONFIG.height (getOutputDimensions (orientation s))
    /\ out_prompt o = prompt s
    /\ out_orientation o = orientation s.
Proof.
  intros Hf Hfetch Hblob Hpost Hok Hbody.
  unfold processSingleVideo. rewrite Hf. run_step.
  rewrite Hfetch, Hblob, length_snoc, Hpost, Hok. cbn [negb]. run_step.
  rewrite Hbody. do 2 eexists. split; [reflexivity|]. repeat split.
Qed.

(** C6. No orientation other than [landscape] and [portrait] passes
    validation; and for every accepted single request whose video download
    and upstream call succeed, polling returns a succeeded output of
    format [mp4] that echoes the request's prompt and orientation and is
    1280 by 704 for [landscape], 704 by 1280 for [portrait]. *)
Theorem single_output_dimensions :
  (forall s,
      valid (validateVideoInput s) = true ->
      orientation s = "landscape" \/ orientation s = "portrait")
  /\ (forall env jobId s w f vr r vb pb,
         Js.startsWith jobId "decart_" = true ->
         valid (validateVideoInput s) = true ->
         file s = Some f ->
         fetch env (List.length (netlog w)) (FetchGet (signedUrl f)) = Normal vr ->
         blob vr = Normal vb ->
         fetch env (S (List.length (netlog w))) (apiPost env vb (prompt s)) = Normal r ->
         ok r = true ->
         blob r = Normal pb ->
         exists o w',
           result env jobId (Some (SingleInput s)) w
           = (Normal (Succeeded (VideoOutput o)), w')
           /\ out_format o = "mp4"
           /\ out_prompt o = prompt s
           /\ out_orientation o = orientation s
           /\ (orientation s = "landscape" ->
               out_width o = Some 1280%Z /\ out_height o = Some 704%Z)
           /\ (orientation s = "portrait" ->
               out_width o = Some 704%Z /\ out_height o = Some 1280%Z)).
Proof.
  split.
  - intros s Hvalid. apply (validateVideoInput_accepted s Hvalid).
  - intros env jobId s w f vr r vb pb Hid Hvalid Hf Hfetch Hblob Hpost Hok Hbody.
    destruct (processSingleVideo_succeeds env s w f vr r vb pb
                Hf Hfetch Hblob Hpost Hok Hbody)
      as (o & w' & Hrun & Hfmt & Hw & Hh & Hp & Ho).
    exists o, w'.
    split; [apply (result_passes_normal env jobId (SingleInput s)); assumption|].
    repeat (split; [assumption|]).
    split; intros Hor; rewrite Hw, Hh, Hor; split; reflexivity.
Qed.

(** C6, at the portrait request of the specification's scenario. *)
Lemma single_output_dimensions_witness :
  exists o w',
    result (Sample.envAllOk (Some "key")) "decart_single_1700000000000_k3j9x2p"
           (Some (SingleInput (Sample.single "clip.mov" (40 * 1048576)
                                             "turn the person into a robot" "portrait")))
           Sample.world0
    = (Normal (Succeeded (VideoOutput o)), w')
    /\ out_format o = "mp4"
    /\ out_width o = Some 704%Z /\ out_height o = Some 1280%Z.
Proof.
  destruct single_output_dimensions as [_ H].
  destruct (H (Sample.envAllOk (Some "key")) "decart_single_1700000000000_k3j9x2p"
              (Sample.single "clip.mov" (40 * 1048576)
                             "turn the person into a robot" "portrait")
              Sample.world0 (Sample.mkFile "clip.mov" (40 * 1048576))
              (Sample.response 200 "payload") (Sample.response 200 "payload")
              "payload" "payload"
              eq_refl eq_refl eq_refl eq_refl eq_refl eq_refl eq_refl eq_refl)
    as (o & w' & Hrun & Hfmt & _ & _ & _ & Hportrait).
  destruct (Hportrait eq_refl) as [Hw Hh].
  exists o, w'. repeat split; assumption.
Defined.

(** ** Upstream errors *)

Lemma string_app_assoc (a b c : string) : (a ++ b ++ c = (a ++ b) ++ c)%string.
Proof. induction a as [|x a IH]; cbn; congruence. Qed.

Lemma msgApiError_embeds (pre : string) (r : Response) (body : string) :
  Js.includes (pre ++ msgApiError r body) (Js.numberToString (status r)) = true
  /\ Js.includes (pre ++ msgApiError r body) body = true.
Proof.
  unfold msgApiError. split.
  - rewrite string_app_assoc. apply includes_append.
  - rewrite !string_app_assoc. apply includes_suffix.
Qed.

Lemma processSingleVideo_non2xx (env : Env) (s : DecartVideoInput) (w : World)
  (f : FileRef) (vr r : Response) (vb : Blob) :
  file s = Some f ->
  fetch env (List.length (netlog w)) (FetchGet (signedUrl f)) = Normal vr ->
  blob vr = Normal vb ->
  fetch env (S (List.length (netlog w))) (apiPost env vb (prompt s)) = Normal r ->
  ok r = false ->
  exists w',
    processSingleVideo env s w
    = (Throw (match text r with
              | Normal body => JsError "Error" (msgApiError r body)
              | Throw e => e
              end), w').
Proof.
  intros Hf Hfetch Hblob Hpost Hok.
  unfold processSingleVideo. rewrite Hf. run_step.
  rewrite Hfetch, Hblob, length_snoc, Hpost, Hok. cbn [negb]. run_step.
  destruct (text r); eexists; reflexivity.
Qed.

Lemma onProcessingError_failed (e : JsException) :
  exists reported, onProcessingError e = Failed reported.
Proof.
  destruct e as [name message|]; cbn [onProcessingError]; [|eauto].
  destruct (String.eqb name "AbortError"); eauto.
Qed.

(** C3, as amended. A non-2xx upstream response is always reported as a
    failure. In the single-video pipeline the failed outcome's message
    embeds the status code and the body text verbatim, unless the message
    built from them contains [timeout], in which case the fixed
    slow-processing message is reported instead. In a batch item the
    failure entry's reason embeds the status code; the body is not read. *)
Theorem upstream_error_reporting :
  (forall env jobId s w f vr r vb,
      Js.startsWith jobId "decart_" = true ->
      file s = Some f ->
      fetch env (List.length (netlog w)) (FetchGet (signedUrl f)) = Normal vr ->
      blob vr = Normal vb ->
      fetch env (S (List.length (netlog w))) (apiPost env vb (prompt s)) = Normal r ->
      ok r = false ->
      exists reported w',
        result env jobId (Some (SingleInput s)) w = (Normal (Failed reported), w')
        /\ (forall body,
               text r = Normal body ->
               reported
               = (if Js.includes (msgApiError r body) "timeout" then msgSlow
                  else "Video processing failed: " ++ msgApiError r body)
               /\ (Js.includes (msgApiError r body) "timeout" = false ->
                   Js.includes reported (Js.numberToString (status r)) = true
                   /\ Js.includes reported body = true)))
  /\ (forall env vb i raw w r,
         Js.truthy (Js.trim raw) = true ->
         fetch env (List.length (netlog w)) (apiPost env vb (Js.trim raw)) = Normal r ->
         ok r = false ->
         exists w',
           batchItem env vb i raw w
           = (Normal (failureEntry (Js.trim raw) (msgItemFailed r)), w')
           /\ msgItemFailed r = "API request failed: " ++ Js.numberToString (status r)
           /\ Js.includes (msgItemFailed r) (Js.numberToString (status r)) = true).
Proof.
  split.
  - intros env jobId s w f vr r vb Hid Hf Hfetch Hblob Hpost Hok.
    destruct (processSingleVideo_non2xx env s w f vr r vb Hf Hfetch Hblob Hpost Hok)
      as (w' & Hrun).
    pose proof (result_converts_throw env jobId (SingleInput s) w w' _ Hid Hrun) as Hres.
    destruct (text r) as [body0|e] eqn:Htext.
    + exists (if Js.includes (msgApiError r body0) "timeout" then msgSlow
              else "Video processing failed: " ++ msgApiError r body0), w'.
      split; [rewrite Hres; reflexivity|].
      intros body Hbody. assert (body0 = body) as -> by congruence.
      split; [reflexivity|]. intros ->. apply msgApiError_embeds.
    + destruct (onProcessingError_failed e) as (reported & Hrep).
      exists reported, w'. split; [rewrite Hres, Hrep; reflexivity|].
      intros body Hbody. discriminate.
  - intros env vb i raw w r Htrim Hpost Hok.
    unfold batchItem, batchAttempt. rewrite Htrim. cbn [negb]. run_step.
    rewrite Hpost, Hok. eexists. split; [reflexivity|].
    split; [reflexivity|]. unfold msgItemFailed. apply includes_suffix.
Qed.

(** C3, amended, at a 422 answer with body [unsupported codec]: once in
    the single-video pipeline, once as the only item of a batch. *)
Lemma upstream_error_reporting_witness :
  (exists w',
      result (Sample.envUpstreamAnswers 422 "unsupported codec")
             "decart_single_1700000000000_k3j9x2p"
             (Some (SingleInput (Sample.single "clip.mov" 4096 "robot" "portrait")))
             Sample.world0
      = (Normal (Failed
           "Video processing failed: Decart API error (422): unsupported codec"), w'))
  /\ (exists w',
         batchItem (Sample.envUpstreamAnswers 422 "unsupported codec") "payload" 0 " robot "
                   {| netlog := [FetchGet (Some Sample.videoUrl0)];
                      clockReads := 0; randomReads := 0 |}
         = (Normal (failureEntry "robot" "API request failed: 422"), w')).
Proof.
  destruct upstream_error_reporting as [Hsingle Hitem]. split.
  - destruct (Hsingle (Sample.envUpstreamAnswers 422 "unsupported codec")
                "decart_single_1700000000000_k3j9x2p"
                (Sample.single "clip.mov" 4096 "robot" "portrait")
                Sample.world0 (Sample.mkFile "clip.mov" 4096)
                (Sample.response 200 "payload") (Sample.response 422 "unsupported codec")
                "payload"
                eq_refl eq_refl eq_refl eq_refl eq_refl eq_refl)
      as (reported & w' & Hrun & Hbody).
    destruct (Hbody "unsupported codec" eq_refl) as [Hmsg _].
    exists w'. rewrite Hrun, Hmsg. reflexivity.
  - destruct (Hitem (Sample.envUpstreamAnswers 422 "unsupported codec") "payload" 0 " robot "
                {| netlog := [FetchGet (Some Sample.videoUrl0)];
                   clockReads := 0; randomReads := 0 |}
                (Sample.response 422 "unsupported codec")
                eq_refl eq_refl eq_refl)
      as (w' & Hrun & _).
    exists w'. exact Hrun.
Defined.

(** C3, as stated, fails twice. A batch item answered 429 with body
    [quota exhausted] is recorded with a reason that does not contain the
    body; and a single request answered 504 with body [upstream timeout]
    is reported with a message that contains neither the status code nor
    the body. *)
Lemma upstream_error_not_always_embedded :
  (exists w',
      result (Sample.envUpstreamAnswers 429 "quota exhausted")
             "decart_batch_1700000000000_k3j9x2p"
             (Some (BatchInput (Sample.batch ["robot"]))) Sample.world0
      = (Normal (Succeeded (BatchResults
           {| totalProcessed := 1; successCount := 0; failureCount := 1;
              results := [failureEntry "robot" "API request failed: 429"] |})), w')
      /\ Js.includes "API request failed: 429" "quota exhausted" = false)
  /\ (exists w',
         result (Sample.envUpstreamAnswers 504 "upstream timeout")
                "decart_single_1700000000000_k3j9x2p"
                (Some (SingleInput (Sample.single "clip.mov" 4096 "robot" "portrait")))
                Sample.world0
         = (Normal (Failed msgSlow), w')
         /\ Js.includes msgSlow "504" = false
         /\ Js.includes msgSlow "upstream timeout" = false).
Proof.
  split; eexists; repeat split; reflexivity.
Qed.

(** ** Missing credential *)

(** Submission checks the credential before anything else: without it
    [run] raises at once and leaves the world untouched. *)
Lemma run_unconfigured (env : Env) (input : ProviderInput) (w : World) :
  isConfigured env = false ->
  run env input w = (Throw (JsError "Error" msgNotConfigured), w).
Proof. intros H. unfold run. rewrite H. reflexivity. Qed.

(** Polling never consults the credential: [result] and the pipelines use
    [DECART_API_KEY] only as the value of the request header. *)
Lemma poll_single_reaches_network (env : Env) (jobId : string) (s : DecartVideoInput)
  (f : FileRef) (w : World) :
  Js.startsWith jobId "decart_" = true ->
  file s = Some f ->
  exists rest,
    netlog (snd (result env jobId (Some (SingleInput s)) w))
    = (netlog w ++ FetchGet (signedUrl f) :: rest)%list.
Proof.
  intros Hid Hf. unfold result. rewrite Hid. cbn [negb].
  unfold processSingleVideo. rewrite Hf. run_step.
  destruct (fetch env (List.length (netlog w)) _) as [vr|e]; [|exists []; reflexivity].
  destruct (blob vr) as [vb|e]; [|exists []; reflexivity].
  destruct (fetch env _ (apiPost env vb (prompt s))) as [r|e];
    [|eexists [_]; cbn; rewrite <- app_assoc; reflexivity].
  destruct (negb (ok r)).
  - destruct (text r); eexists [_]; cbn; rewrite <- app_assoc; reflexivity.
  - destruct (blob r); eexists [_]; cbn; rewrite <- app_assoc; reflexivity.
Qed.

(** C4, evaluated without a credential. Submitting is blocked before any
    network call; polling the same request is not: it downloads the video,
    posts it upstream with an absent key and returns a succeeded outcome. *)
Theorem poll_without_credential_calls_upstream :
  isConfigured (Sample.envAllOk None) = false
  /\ run (Sample.envAllOk None)
         (SingleInput (Sample.single "clip.mov" 4096 "robot" "portrait")) Sample.world0
     = (Throw (JsError "Error" "Decart not configured - missing DECART_API_KEY"),
        Sample.world0)
  /\ exists o,
       result (Sample.envAllOk None) "decart_single_1700000000000_k3j9x2p"
              (Some (SingleInput (Sample.single "clip.mov" 4096 "robot" "portrait")))
              Sample.world0
       = (Normal (Succeeded (VideoOutput o)),
          {| netlog := [FetchGet (Some Sample.videoUrl0);
                        FetchPost DECART_CONFIG.endpoint None "payload" "input.mp4" "robot"];
             clockReads := 2; randomReads := 1 |}).
Proof.
  split; [reflexivity|]. split; [reflexivity|]. eexists. reflexivity.
Qed.

(** ** Orientation at poll time *)

(** The fallback of [getOutputDimensions] applies to a key that the
    [orientations] object neither owns nor inherits. *)
Lemma getOutputDimensions_fallback (o : string) :
  o <> "landscape" -> o <> "portrait" ->
  Js.arrayIncludes DECART_CONFIG.objectPrototypeKeys o = false ->
  getOutputDimensions o = DECART_CONFIG.Dims 1280 704.
Proof.
  intros Hl Hp Hproto. unfold getOutputDimensions, DECART_CONFIG.orientations.
  apply String.eqb_neq in Hl, Hp. rewrite Hl, Hp, Hproto. reflexivity.
Qed.

(** Polling does not validate: a request that validation rejects for its
    orientation is processed all the same. *)
Lemma poll_skips_validation :
  validateVideoInput (Sample.single "clip.mov" 4096 "robot" "diagonal")
  = rejected msgOrientation
  /\ exists o w',
       result (Sample.envAllOk (Some "key")) "decart_single_1700000000000_k3j9x2p"
              (Some (SingleInput (Sample.single "clip.mov" 4096 "robot" "diagonal")))
              Sample.world0
       = (Normal (Succeeded (VideoOutput o)), w')
       /\ out_width o = Some 1280%Z /\ out_height o = Some 704%Z.
Proof. split; [reflexivity|]. do 2 eexists. repeat split. Qed.

(** C9, evaluated at the orientation [constructor]. The name is outside
    {landscape, portrait}, the read on the [orientations] object finds the
    member inherited from [Object.prototype], which is truthy, so the
    landscape fallback is not taken and the succeeded output has neither
    width nor height. *)
Theorem poll_inherited_orientation_has_no_dimensions :
  Js.arrayIncludes ["landscape"; "portrait"] "constructor" = false
  /\ getOutputDimensions "constructor" = DECART_CONFIG.ProtoMember "constructor"
  /\ exists o w',
       result (Sample.envAllOk (Some "key")) "decart_single_1700000000000_k3j9x2p"
              (Some (SingleInput (Sample.single "clip.mov" 4096 "robot" "constructor")))
              Sample.world0
       = (Normal (Succeeded (VideoOutput o)), w')
       /\ out_width o = None /\ out_height o = None
       /\ out_orientation o = "constructor".
Proof. split; [reflexivity|]. split; [reflexivity|]. do 2 eexists. repeat split. Qed.

(** * Further properties of the validators, the submit gate and the pipelines *)

(** ** The extension of a dotted name *)

Lemma lastDotSegment_append (base ext : string) :
  Js.includes ext "." = false ->
  Contract.lastDotSegment (base ++ "." ++ ext) = ext.
Proof.
  intros Hext. induction base as [|c base IH].
  - change (EmptyString ++ "." ++ ext) with (String "." ext).
    cbn [Contract.lastDotSegment]. rewrite Hext. reflexivity.
  - change (String c base ++ "." ++ ext) with (String c (base ++ "." ++ ext)).
    cbn [Contract.lastDotSegment]. rewrite includes_append. exact IH.
Qed.

(** X1. The extension check looks only at the text after the last dot of
    the file name, lowercased: for a name [base.ext] whose [ext] has no
    dot, the check passes exactly when [ext], lowercased, is one of the
    five supported formats, whatever [base] is. *)
Theorem extension_is_text_after_last_dot (base ext : string) :
  Js.includes ext "." = false ->
  fileExtension (base ++ "." ++ ext) = Some (Js.toLowerCase ext)
  /\ unsupportedExtension (fileExtension (base ++ "." ++ ext))
     = negb (Js.arrayIncludes DECART_CONFIG.supportedFormats (Js.toLowerCase ext)).
Proof.
  intros Hext.
  assert (E : fileExtension (base ++ "." ++ ext) = Some (Js.toLowerCase ext))
    by (rewrite fileExtension_lastDotSegment, lastDotSegment_append by exact Hext;
        reflexivity).
  split; [exact E|]. rewrite E. apply unsupportedExtension_spec.
Qed.

(** X1, at a name with two dots and an uppercase extension, at a video
    name followed by another extension, and at a name ending in a dot. *)
Lemma extension_is_text_after_last_dot_witness :
  unsupportedExtension (fileExtension "holiday.v2.MOV") = false
  /\ unsupportedExtension (fileExtension "clip.mp4.exe") = true
  /\ unsupportedExtension (fileExtension "clip.") = true.
Proof.
  split; [|split].
  - exact (proj2 (extension_is_text_after_last_dot "holiday.v2" "MOV" eq_refl)).
  - exact (proj2 (extension_is_text_after_last_dot "clip.mp4" "exe" eq_refl)).
  - exact (proj2 (extension_is_text_after_last_dot "clip" EmptyString eq_refl)).
Defined.

(** ** Batch validation *)

Lemma firstFailure_accepted (cs : list Contract.Check) (i : DecartVideoInput) :
  forallb (fun d => Contract.passes d i) cs = true ->
  Contract.firstFailure cs i = accepted.
Proof.
  induction cs as [|c cs IH]; cbn [forallb Contract.firstFailure]; intros H.
  - reflexivity.
  - apply andb_prop in H as [Hc H]. rewrite Hc. exact (IH H).
Qed.

(** On a request whose prompt passes the two prompt checks, the seven
    checks decide as the five that do not look at the prompt. *)
Lemma firstFailure_videoChecks (s : DecartVideoInput) :
  promptMissing (prompt s) = false ->
  promptTooLong (prompt s) = false ->
  validateVideoInput s = Contract.firstFailure videoChecks s.
Proof.
  intros Hm Hl. rewrite validateVideoInput_firstFailure.
  rewrite promptMissing_spec in Hm. rewrite promptTooLong_spec in Hl.
  apply negb_false_iff in Hl.
  unfold Contract.checks, videoChecks.
  cbn [Contract.firstFailure].
  change (Contract.passes Contract.promptNonEmpty s)
    with (negb (String.eqb (Js.trim (prompt s)) EmptyString)).
  change (Contract.passes Contract.promptWithinCeiling s)
    with (String.length (prompt s) <=? 1000)%nat.
  rewrite Hm, Hl. reflexivity.
Qed.

(** The five video checks do not depend on the prompt. *)
Lemma videoChecks_ignore_prompt (b : DecartBatchInput) (p q : string) :
  Contract.firstFailure videoChecks (asSingle b p)
  = Contract.firstFailure videoChecks (asSingle b q).
Proof. reflexivity. Qed.

Lemma validateBatchInput_video_part (b : DecartBatchInput) :
  validateBatchInput b
  = if valid (Contract.firstFailure videoChecks (asSingle b "dummy"))
    then match csvFile b with
         | None => rejected msgCsvRequired
         | Some csv =>
             match prompts csv with
             | None => rejected msgCsvRequired
             | Some ps =>
                 if (List.length ps =? 0)%nat then rejected msgCsvEmpty
                 else validatePrompts ps 0
             end
         end
    else Contract.firstFailure videoChecks (asSingle b "dummy").
Proof.
  rewrite <- (firstFailure_videoChecks (asSingle b "dummy") eq_refl eq_refl).
  unfold validateBatchInput.
  change (validateVideoInput
            {| modelCode := batch_modelCode b; prompt := "dummy";
               orientation := batch_orientation b; enhance_prompt := None;
               file := videoFile b |})
    with (validateVideoInput (asSingle b "dummy")).
  destruct (valid (validateVideoInput (asSingle b "dummy"))); reflexivity.
Qed.

Lemma validatePrompts_first_bad (pre post : list string) (p : string) :
  Forall (fun q => promptMissing q = false /\ promptTooLong q = false) pre ->
  forall i,
    validatePrompts (pre ++ p :: post) i
    = if promptMissing p then rejected (msgEmptyRow (i + List.length pre))
      else if promptTooLong p then rejected (msgLongRow (i + List.length pre))
      else validatePrompts post (S (i + List.length pre)).
Proof.
  induction 1 as [|q pre [Hm Hl] _ IH]; intros i; cbn [app validatePrompts List.length].
  - rewrite Nat.add_0_r. reflexivity.
  - rewrite Hm, Hl, IH. replace (S i + List.length pre) with (i + S (List.length pre)) by lia.
    reflexivity.
Qed.

Lemma validatePrompts_all_fine (ps : list string) :
  Forall (fun q => promptMissing q = false /\ promptTooLong q = false) ps ->
  forall i, validatePrompts ps i = accepted.
Proof.
  induction 1 as [|q ps [Hm Hl] _ IH]; intros i; cbn [validatePrompts].
  - reflexivity.
  - rewrite Hm, Hl. apply IH.
Qed.

Lemma validatePrompts_accepted_fine (ps : list string) :
  forall i, valid (validatePrompts ps i) = true ->
            Forall (fun q => promptMissing q = false /\ promptTooLong q = false) ps.
Proof.
  induction ps as [|p ps IH]; intros i H; [constructor|].
  cbn [validatePrompts] in H.
  destruct (promptMissing p) eqn:Hp; [discriminate|].
  destruct (promptTooLong p) eqn:Hl; [discriminate|].
  constructor; [split; assumption | exact (IH _ H)].
Qed.

Lemma promptFine_iff (q : string) :
  (promptMissing q = false /\ promptTooLong q = false)
  <-> (Js.trim q <> EmptyString /\ String.length q <= 1000).
Proof.
  rewrite promptMissing_spec. unfold promptTooLong, DECART_CONFIG.maxPromptLength.
  rewrite String.eqb_neq, Nat.ltb_ge. reflexivity.
Qed.

Lemma validateVideoInput_valid_iff (s : DecartVideoInput) :
  valid (validateVideoInput s) = true
  <-> (valid (Contract.firstFailure videoChecks s) = true
       /\ promptMissing (prompt s) = false /\ promptTooLong (prompt s) = false).
Proof.
  split.
  - intros H. rewrite validateVideoInput_firstFailure in H.
    apply validateVideoInput_valid_firstFailure in H.
    cbn [forallb Contract.checks] in H.
    repeat (apply andb_prop in H as [? H]).
    assert (Hm : promptMissing (prompt s) = false).
    { rewrite promptMissing_spec. apply negb_true_iff. assumption. }
    assert (Hl : promptTooLong (prompt s) = false).
    { rewrite promptTooLong_spec. apply negb_false_iff. assumption. }
    split; [|split; assumption].
    rewrite firstFailure_accepted; [reflexivity|].
    cbn [forallb videoChecks].
    repeat match goal with Hp : _ = true |- _ => rewrite Hp; clear Hp end.
    reflexivity.
  - intros (Hv & Hm & Hl). rewrite (firstFailure_videoChecks s Hm Hl). exact Hv.
Qed.

(** X2. When the shared video passes its checks, batch validation walks
    the prompts in order and rejects at the first one that is blank or
    longer than 1000 characters, naming its row counted from 1; a prompt
    that is both is reported as empty. *)
Theorem validateBatchInput_reports_first_bad_row (b : DecartBatchInput)
  (csv : CsvFile) (pre post : list string) (p : string) :
  valid (Contract.firstFailure videoChecks (asSingle b p)) = true ->
  csvFile b = Some csv ->
  prompts csv = Some (pre ++ p :: post)%list ->
  Forall (fun q => Js.trim q <> EmptyString /\ String.length q <= 1000) pre ->
  (Js.trim p = EmptyString ->
   validateBatchInput b
   = rejected ("Empty prompt found at row "
               ++ Js.numberToString (Z.of_nat (List.length pre + 1))))
  /\ (Js.trim p <> EmptyString -> 1000 < String.length p ->
      validateBatchInput b
      = rejected ("Prompt at row "
                  ++ Js.numberToString (Z.of_nat (List.length pre + 1))
                  ++ " too long (max 1000 chars)")).
Proof.
  intros Hvideo Hcsv Hps Hpre.
  assert (Hpre' : Forall (fun q => promptMissing q = false /\ promptTooLong q = false) pre).
  { eapply Forall_impl; [|exact Hpre]. intros q Hq. apply promptFine_iff. exact Hq. }
  assert (Hrun : validateBatchInput b = validatePrompts (pre ++ p :: post) 0).
  { rewrite validateBatchInput_video_part.
    rewrite (videoChecks_ignore_prompt b "dummy" p), Hvideo, Hcsv, Hps.
    destruct pre; reflexivity. }
  rewrite Hrun, (validatePrompts_first_bad pre post p Hpre' 0). cbn [Nat.add].
  split.
  - intros Hblank. rewrite promptMissing_spec, Hblank. reflexivity.
  - intros Hnb Hlong. rewrite promptMissing_spec.
    apply String.eqb_neq in Hnb. rewrite Hnb.
    unfold promptTooLong, DECART_CONFIG.maxPromptLength.
    apply Nat.ltb_lt in Hlong. rewrite Hlong. reflexivity.
Qed.

(** X2, at the prompt list [a], blank, [b] of the specification's
    scenario. *)
Lemma validateBatchInput_reports_first_bad_row_witness :
  validateBatchInput (Sample.batch ["a"; "  "; "b"])
  = rejected "Empty prompt found at row 2".
Proof.
  refine (proj1 (validateBatchInput_reports_first_bad_row
                   (Sample.batch ["a"; "  "; "b"])
                   {| csv_path := "uploads/prompts.csv"; csv_signedUrl := None;
                      csv_mime := "text/csv"; csv_size := 64;
                      prompts := Some ["a"; "  "; "b"] |}
                   ["a"] ["b"] "  " eq_refl eq_refl eq_refl _) eq_refl).
  constructor; [|constructor]. split; [discriminate | cbn; lia].
Defined.

(** X3. A batch request is accepted exactly when its prompt list is
    present and not empty and each of its prompts, applied to the shared
    video as a single request, is accepted by the single-video validator. *)
Theorem validateBatchInput_accepts_iff (b : DecartBatchInput) :
  valid (validateBatchInput b) = true
  <-> exists csv ps,
        csvFile b = Some csv /\ prompts csv = Some ps /\ ps <> []
        /\ Forall (fun p => valid (validateVideoInput (asSingle b p)) = true) ps.
Proof.
  rewrite validateBatchInput_video_part. split.
  - destruct (valid (Contract.firstFailure videoChecks (asSingle b "dummy"))) eqn:Hv;
      [|congruence].
    destruct (csvFile b) as [csv|]; [|discriminate].
    destruct (prompts csv) as [ps|] eqn:Hps; [|discriminate].
    destruct ps as [|p ps]; [discriminate|]. cbn [List.length Nat.eqb].
    intros H. exists csv, (p :: ps).
    repeat split; try reflexivity; try assumption; [discriminate|].
    apply validatePrompts_accepted_fine in H.
    eapply Forall_impl; [|exact H]. intros q [Hm Hl].
    apply validateVideoInput_valid_iff. cbn [prompt asSingle].
    rewrite (videoChecks_ignore_prompt b q "dummy"). auto.
  - intros (csv & ps & Hcsv & Hps & Hne & Hall).
    assert (Hfine : Forall (fun q => promptMissing q = false /\ promptTooLong q = false) ps).
    { eapply Forall_impl; [|exact Hall]. intros q Hq.
      apply validateVideoInput_valid_iff in Hq. exact (proj2 Hq). }
    destruct ps as [|p ps]; [congruence|].
    pose proof (Forall_inv Hall) as Hp.
    apply validateVideoInput_valid_iff in Hp as [Hv _].
    rewrite (videoChecks_ignore_prompt b p "dummy") in Hv.
    rewrite Hv, Hcsv, Hps. cbn [List.length Nat.eqb].
    rewrite (validatePrompts_all_fine _ Hfine). reflexivity.
Qed.

(** X3, at a batch of two prompts. *)
Lemma validateBatchInput_accepts_iff_witness :
  valid (validateBatchInput (Sample.batch ["robot"; " pirate "])) = true.
Proof.
  apply validateBatchInput_accepts_iff.
  exists {| csv_path := "uploads/prompts.csv"; csv_signedUrl := None;
            csv_mime := "text/csv"; csv_size := 64;
            prompts := Some ["robot"; " pirate "] |}, ["robot"; " pirate "].
  repeat split; try reflexivity; [discriminate|].
  repeat constructor.
Defined.

(** X4. Batch validation applies the model, reference, size, extension
    and orientation checks to the shared video before it looks at the
    prompt list: when one of them fails, its reason is the one reported,
    whatever the prompt list holds, even a missing one. *)
Theorem batch_video_checks_come_first (b : DecartBatchInput) (p : string) :
  valid (Contract.firstFailure videoChecks (asSingle b p)) = false ->
  validateBatchInput b = Contract.firstFailure videoChecks (asSingle b p).
Proof.
  intros H. rewrite validateBatchInput_video_part.
  rewrite (videoChecks_ignore_prompt b "dummy" p), H. reflexivity.
Qed.

(** X4, at a batch with an unknown orientation and no prompt list. *)
Lemma batch_video_checks_come_first_witness :
  validateBatchInput (Scenario.batchOn "diagonal" None) = rejected msgOrientation.
Proof.
  exact (batch_video_checks_come_first (Scenario.batchOn "diagonal" None) "any" eq_refl).
Defined.

(** ** The submit gate *)

Ltac split_cases :=
  repeat (run_step;
          match goal with
          | |- context [match ?x with _ => _ end] => destruct x
          end).

Lemma jobToken_runs (env : Env) (kind : string) (w : World) :
  exists rest,
    jobToken env kind w
    = (Normal (kind ++ rest),
       {| netlog := netlog w; clockReads := S (clockReads w);
          randomReads := S (randomReads w) |}).
Proof. unfold jobToken. run_step. eexists. reflexivity. Qed.

(** A pipeline that completes normally reports [Succeeded]. *)
Lemma pipeline_normal_is_succeeded (env : Env) (request : ProviderInput)
  (w w' : World) (r : ProviderStatusResult) :
  match request with
  | BatchInput b => processBatch env b
  | SingleInput s => processSingleVideo env s
  end w = (Normal r, w') ->
  exists o, r = Succeeded o.
Proof.
  destruct request as [s|b]; unfold processSingleVideo, processBatch;
    split_cases; intros H; inversion H; eauto.
Qed.

Lemma result_terminal (env : Env) (jobId : string) (request : ProviderInput) (w : World) :
  Js.startsWith jobId "decart_" = true ->
  exists outcome w',
    result env jobId (Some request) w = (Normal outcome, w')
    /\ outcome <> Running.
Proof.
  intros Hid.
  destruct (match request with
            | BatchInput b => processBatch env b
            | SingleInput s => processSingleVideo env s
            end w) as [[r|e] w'] eqn:Hrun.
  - destruct (pipeline_normal_is_succeeded env request w w' r Hrun) as [o ->].
    exists (Succeeded o), w'.
    split; [exact (result_passes_normal env jobId request w w' _ Hid Hrun) | discriminate].
  - destruct (onProcessingError_failed e) as [m Hm].
    exists (Failed m), w'.
    split; [rewrite <- Hm; exact (result_converts_throw env jobId request w w' e Hid Hrun)
           | discriminate].
Qed.

Lemma run_accepts (env : Env) (input : ProviderInput) (w : World) :
  isConfigured env = true ->
  valid (validateRequest input) = true ->
  exists rest,
    run env input w
    = (Normal (Deferred (handlePrefix input ++ rest)),
       {| netlog := netlog w; clockReads := S (clockReads w);
          randomReads := S (randomReads w) |}).
Proof.
  intros Hconf Hvalid. unfold run. rewrite Hconf. cbn [negb].
  destruct input as [s|b]; cbn [validateRequest handlePrefix] in *;
    rewrite Hvalid; cbn [negb].
  - destruct (jobToken_runs env "decart_single_" w) as [rest E].
    exists rest. unfold bind. rewrite E. reflexivity.
  - destruct (validateBatchInput_accepted b Hvalid)
      as (f & url & csv & ps & _ & _ & Hcsv & Hps & _).
    destruct (jobToken_runs env "decart_batch_" w) as [rest E].
    exists rest. unfold bind at 1. rewrite E, Hcsv. run_step. rewrite Hps. reflexivity.
Qed.

Lemma run_rejects (env : Env) (input : ProviderInput) (w : World) :
  isConfigured env = true ->
  valid (validateRequest input) = false ->
  run env input w = (Throw (newError (error (validateRequest input))), w).
Proof.
  intros Hconf Hvalid. unfold run. rewrite Hconf. cbn [negb].
  destruct input as [s|b]; cbn [validateRequest] in *; rewrite Hvalid; reflexivity.
Qed.

(** X5. Submitting never touches the network, whatever the request and
    the environment; and when it rejects, it has read neither the clock
    nor the random source, and the error raised is the configuration
    error or the one carrying the validator's reason. *)
Theorem run_never_calls_network (env : Env) (input : ProviderInput) (w : World) :
  netlog (snd (run env input w)) = netlog w
  /\ (forall e w',
         run env input w = (Throw e, w') ->
         w' = w
         /\ (e = JsError "Error" msgNotConfigured
             \/ e = newError (error (validateRequest input)))).
Proof.
  destruct (isConfigured env) eqn:Hconf.
  - destruct (valid (validateRequest input)) eqn:Hvalid.
    + destruct (run_accepts env input w Hconf Hvalid) as [rest E].
      rewrite E. split; [reflexivity | discriminate].
    + rewrite (run_rejects env input w Hconf Hvalid).
      split; [reflexivity|]. intros e w' H. injection H as <- <-. auto.
  - rewrite (run_unconfigured env input w Hconf).
    split; [reflexivity|]. intros e w' H. injection H as <- <-. auto.
Qed.

(** X5, at a single request with a blank prompt. *)
Lemma run_never_calls_network_witness :
  netlog (snd (run (Sample.envAllOk (Some "key"))
                   (SingleInput (Sample.single "clip.mov" 4096 "   " "portrait"))
                   Sample.world0)) = []
  /\ (JsError "Error" "Prompt is required for video transformation"
      = JsError "Error" msgNotConfigured
      \/ JsError "Error" "Prompt is required for video transformation"
         = newError (error (validateRequest
                              (SingleInput (Sample.single "clip.mov" 4096 "   "
                                                          "portrait"))))).
Proof.
  destruct (run_never_calls_network
              (Sample.envAllOk (Some "key"))
              (SingleInput (Sample.single "clip.mov" 4096 "   " "portrait"))
              Sample.world0) as [Hnet H].
  split; [exact Hnet|].
  exact (proj2 (H (JsError "Error" "Prompt is required for video transformation")
                  Sample.world0 eq_refl)).
Defined.

(** X6. With the credential configured, an accepted request is given a
    handle that starts with [decart_single_] or [decart_batch_] according
    to its kind, at the cost of one clock reading and one random number;
    polling that handle with the same request, in any environment and
    world, yields a terminal outcome, never [Running]. *)
Theorem run_handle_polls_to_terminal (env : Env) (input : ProviderInput) (w : World) :
  isConfigured env = true ->
  valid (validateRequest input) = true ->
  exists jobId w1,
    run env input w = (Normal (Deferred jobId), w1)
    /\ Js.startsWith jobId (handlePrefix input) = true
    /\ Js.startsWith jobId "decart_" = true
    /\ netlog w1 = netlog w
    /\ clockReads w1 = S (clockReads w) /\ randomReads w1 = S (randomReads w)
    /\ (forall env' w2,
           exists outcome w3,
             result env' jobId (Some input) w2 = (Normal outcome, w3)
             /\ outcome <> Running).
Proof.
  intros Hconf Hvalid.
  destruct (run_accepts env input w Hconf Hvalid) as [rest E].
  assert (Hid : Js.startsWith (handlePrefix input ++ rest) "decart_" = true).
  { unfold Js.startsWith.
    destruct input; [exact (prefix_append "decart_" ("single_" ++ rest))
                    | exact (prefix_append "decart_" ("batch_" ++ rest))]. }
  do 2 eexists. split; [exact E|].
  split; [apply prefix_append|]. split; [exact Hid|].
  repeat (split; [reflexivity|]).
  intros env' w2. apply result_terminal. exact Hid.
Qed.

(** X6, at a single request. *)
Lemma run_handle_polls_to_terminal_witness :
  exists jobId w1,
    run (Sample.envAllOk (Some "key"))
        (SingleInput (Sample.single "clip.mov" 4096 "robot" "portrait")) Sample.world0
    = (Normal (Deferred jobId), w1)
    /\ Js.startsWith jobId "decart_single_" = true.
Proof.
  destruct (run_handle_polls_to_terminal
              (Sample.envAllOk (Some "key"))
              (SingleInput (Sample.single "clip.mov" 4096 "robot" "portrait"))
              Sample.world0 eq_refl eq_refl)
    as (jobId & w1 & E & Hprefix & _).
  exists jobId, w1. split; assumption.
Defined.

(** ** Polling *)

(** X7. Polling never raises: whatever the environment, handle, request
    and world, [result] completes normally; and its outcome is [Running]
    exactly when the handle does not start with [decart_] or the request
    is absent. Past that guard the outcome is terminal. *)
Theorem poll_never_raises (env : Env) (jobId : string)
  (input : option ProviderInput) (w : World) :
  exists outcome w',
    result env jobId input w = (Normal outcome, w')
    /\ (outcome = Running
        <-> (Js.startsWith jobId "decart_" = false \/ input = None)).
Proof.
  destruct input as [request|].
  - destruct (Js.startsWith jobId "decart_") eqn:Hid.
    + destruct (result_terminal env jobId request w Hid) as (outcome & w' & E & Hne).
      exists outcome, w'. split; [exact E|]. split; [contradiction|].
      intros [H|H]; discriminate.
    + exists Running, w. split; [|split; auto].
      unfold result. rewrite Hid. reflexivity.
  - exists Running, w. split; [reflexivity|]. split; auto.
Qed.

(** X7, at a poll whose download is refused by the network. *)
Lemma poll_never_raises_witness :
  exists outcome w',
    result Sample.envNoDownload "decart_single_1700000000000_k3j9x2p"
           (Some (SingleInput (Sample.single "clip.mov" 4096 "robot" "portrait")))
           Sample.world0
    = (Normal outcome, w')
    /\ outcome <> Running.
Proof.
  destruct (poll_never_raises
              Sample.envNoDownload "decart_single_1700000000000_k3j9x2p"
              (Some (SingleInput (Sample.single "clip.mov" 4096 "robot" "portrait")))
              Sample.world0) as (outcome & w' & E & Hrun).
  exists outcome, w'. split; [exact E|].
  intros H. apply Hrun in H. destruct H; discriminate.
Defined.

(** ** The network calls of the single-video pipeline *)

(** X8. A single-video poll past the guard first downloads the signed
    URL. If the download or the read of its body raises, the upstream
    endpoint is never called and the poll reports the failure. Otherwise
    exactly one upstream call follows, whatever the status of the download
    response: a POST to the configured endpoint carrying the credential of
    the environment, the downloaded body under the file name [input.mp4]
    and the prompt as given, untrimmed; nothing is retried. *)
Theorem single_poll_network_protocol (env : Env) (jobId : string)
  (s : DecartVideoInput) (w : World) (f : FileRef) :
  Js.startsWith jobId "decart_" = true ->
  file s = Some f ->
  (forall e,
      fetch env (List.length (netlog w)) (FetchGet (signedUrl f)) = Throw e ->
      result env jobId (Some (SingleInput s)) w
      = (Normal (onProcessingError e),
         {| netlog := (netlog w ++ [FetchGet (signedUrl f)])%list;
            clockReads := clockReads w; randomReads := randomReads w |}))
  /\ (forall vr e,
         fetch env (List.length (netlog w)) (FetchGet (signedUrl f)) = Normal vr ->
         blob vr = Throw e ->
         result env jobId (Some (SingleInput s)) w
         = (Normal (onProcessingError e),
            {| netlog := (netlog w ++ [FetchGet (signedUrl f)])%list;
               clockReads := clockReads w; randomReads := randomReads w |}))
  /\ (forall vr vb,
         fetch env (List.length (netlog w)) (FetchGet (signedUrl f)) = Normal vr ->
         blob vr = Normal vb ->
         netlog (snd (result env jobId (Some (SingleInput s)) w))
         = (netlog w ++ [FetchGet (signedUrl f);
                         FetchPost DECART_CONFIG.endpoint (DECART_API_KEY env)
                                   vb "input.mp4" (prompt s)])%list).
Proof.
  intros Hid Hf.
  split; [|split].
  - intros e Hfetch.
    apply (result_converts_throw env jobId (SingleInput s)); [exact Hid|].
    unfold processSingleVideo. rewrite Hf. run_step. rewrite Hfetch. reflexivity.
  - intros vr e Hfetch Hblob.
    apply (result_converts_throw env jobId (SingleInput s)); [exact Hid|].
    unfold processSingleVideo. rewrite Hf. run_step. rewrite Hfetch, Hblob. reflexivity.
  - intros vr vb Hfetch Hblob.
    unfold result. rewrite Hid. cbn [negb].
    unfold processSingleVideo. rewrite Hf. run_step. rewrite Hfetch, Hblob.
    unfold apiPost.
    destruct (fetch env _ (FetchPost _ _ _ _ _)) as [r|e];
      [destruct (negb (ok r)); [destruct (text r) | destruct (blob r)]|];
      cbn [snd netlog]; rewrite <- ?app_assoc; reflexivity.
Qed.

(** X8, at a download that answers 404 with an error page: the page is
    what is posted upstream. *)
Lemma single_poll_network_protocol_witness :
  netlog (snd (result (Scenario.envDownloadAnswers 404 "no such object")
                      "decart_single_1700000000000_k3j9x2p"
                      (Some (SingleInput (Sample.single "clip.mov" 4096 " robot " "portrait")))
                      Sample.world0))
  = [FetchGet (Some Sample.videoUrl0);
     FetchPost DECART_CONFIG.endpoint (Some "key") "no such object" "input.mp4" " robot "].
Proof.
  destruct (single_poll_network_protocol
              (Scenario.envDownloadAnswers 404 "no such object")
              "decart_single_1700000000000_k3j9x2p"
              (Sample.single "clip.mov" 4096 " robot " "portrait")
              Sample.world0 (Sample.mkFile "clip.mov" 4096) eq_refl eq_refl)
    as (_ & _ & H).
  exact (H (Sample.response 404 "no such object") "no such object" eq_refl eq_refl).
Defined.

(** X9. When the upstream call of a single-video poll raises, the poll
    reports [Failed] with a message chosen by the exception: the fixed
    timed-out message for an exception named [AbortError], even when its
    own message mentions a timeout; otherwise the fixed slow-processing
    message when the exception's message contains [timeout]; otherwise
    the exception's message, verbatim, after [Video processing failed: ];
    and the fixed unknown-error message for a raised value that is not an
    [Error]. *)
Theorem single_poll_classifies_raised_errors (env : Env) (jobId : string)
  (s : DecartVideoInput) (w : World) (f : FileRef) (vr : Response) (vb : Blob)
  (e : JsException) :
  Js.startsWith jobId "decart_" = true ->
  file s = Some f ->
  fetch env (List.length (netlog w)) (FetchGet (signedUrl f)) = Normal vr ->
  blob vr = Normal vb ->
  fetch env (S (List.length (netlog w))) (apiPost env vb (prompt s)) = Throw e ->
  exists reported w',
    result env jobId (Some (SingleInput s)) w = (Normal (Failed reported), w')
    /\ (forall message, e = JsError "AbortError" message -> reported = msgAborted)
    /\ (forall name message,
           e = JsError name message -> name <> "AbortError" ->
           Js.includes message "timeout" = true -> reported = msgSlow)
    /\ (forall name message,
           e = JsError name message -> name <> "AbortError" ->
           Js.includes message "timeout" = false ->
           reported = "Video processing failed: " ++ message
           /\ Js.includes reported message = true)
    /\ (e = NonError -> reported = msgUnknown).
Proof.
  intros Hid Hf Hfetch Hblob Hpost.
  assert (Hrun : exists w', processSingleVideo env s w = (Throw e, w')).
  { unfold processSingleVideo. rewrite Hf. run_step.
    rewrite Hfetch, Hblob, length_snoc, Hpost. eexists. reflexivity. }
  destruct Hrun as [w' Hrun].
  pose proof (result_converts_throw env jobId (SingleInput s) w w' e Hid Hrun) as Hres.
  destruct (onProcessingError_failed e) as [reported Hrep].
  exists reported, w'. split; [rewrite Hres, Hrep; reflexivity|].
  split; [|split; [|split]].
  - intros message ->. cbn in Hrep. congruence.
  - intros name message -> Hname Htimeout. cbn [onProcessingError] in Hrep.
    apply String.eqb_neq in Hname. rewrite Hname, Htimeout in Hrep. congruence.
  - intros name message -> Hname Htimeout. cbn [onProcessingError] in Hrep.
    apply String.eqb_neq in Hname. rewrite Hname, Htimeout in Hrep.
    assert (reported = "Video processing failed: " ++ message) as -> by congruence.
    split; [reflexivity | apply includes_suffix].
  - intros ->. cbn in Hrep. congruence.
Qed.

(** X9, at an upstream call aborted with a message that mentions a
    timeout. *)
Lemma single_poll_classifies_raised_errors_witness :
  exists w',
    result (Scenario.envUpstreamRaises
              (JsError "AbortError" "The operation was aborted due to timeout"))
           "decart_single_1700000000000_k3j9x2p"
           (Some (SingleInput (Sample.single "clip.mov" 4096 "robot" "portrait")))
           Sample.world0
    = (Normal (Failed "Video processing timed out. Please try again with a smaller video."),
       w').
Proof.
  destruct (single_poll_classifies_raised_errors
              (Scenario.envUpstreamRaises
                 (JsError "AbortError" "The operation was aborted due to timeout"))
              "decart_single_1700000000000_k3j9x2p"
              (Sample.single "clip.mov" 4096 "robot" "portrait")
              Sample.world0 (Sample.mkFile "clip.mov" 4096)
              (Sample.response 200 "payload") "payload"
              (JsError "AbortError" "The operation was aborted due to timeout")
              eq_refl eq_refl eq_refl eq_refl eq_refl)
    as (reported & w' & E & Habort & _).
  exists w'. rewrite E, (Habort _ eq_refl). reflexivity.
Defined.

(** ** What the batch loop leaves behind *)

Lemma countTrue_cons (b : bool) (l : list bool) :
  countTrue (b :: l) = (if b then 1 else 0) + countTrue l.
Proof. unfold countTrue. destruct b; reflexivity. Qed.

Lemma truthy_false (s : string) : Js.truthy s = false -> s = EmptyString.
Proof.
  unfold Js.truthy. intros H. apply negb_false_iff in H.
  apply String.eqb_eq. exact H.
Qed.

Section BatchEffects.

Variable env : Env.
Variable videoBlob : Blob.

Lemma batchItem_effects (i : nat) (raw : string) (w : World) :
  exists e w',
    batchItem env videoBlob i raw w = (Normal e, w')
    /\ netlog w'
       = (netlog w ++ if isBlank raw then []
                      else [apiPost env videoBlob (Js.trim raw)])%list
    /\ clockReads w' = clockReads w + (if success e then 2 else 0)
    /\ randomReads w' = randomReads w + (if success e then 1 else 0)
    /\ itemRecorded i raw e.
Proof.
  unfold batchItem, batchAttempt, itemRecorded, isBlank.
  destruct (Js.truthy (Js.trim raw)) eqn:Ht; cbn [negb].
  - run_step. destruct (fetch env _ _) as [r|e]; [destruct (ok r)|]; run_step;
      do 2 eexists; (split; [reflexivity|]); cbn;
      repeat split; try lia; try discriminate; eauto.
  - run_step. do 2 eexists. split; [reflexivity|]. cbn.
    rewrite (truthy_false _ Ht), app_nil_r.
    repeat split; try lia; try discriminate.
Qed.

Lemma batchLoop_effects (ps : list string) :
  forall (i : nat) (acc : list BatchResult) (w : World),
  exists es w',
    batchLoop env videoBlob ps i acc w = (Normal (acc ++ es)%list, w')
    /\ netlog w'
       = (netlog w ++ map (fun p => apiPost env videoBlob (Js.trim p))
                          (filter (fun p => negb (isBlank p)) ps))%list
    /\ clockReads w' = clockReads w + 2 * countTrue (map success es)
    /\ randomReads w' = randomReads w + countTrue (map success es)
    /\ List.length es = List.length ps
    /\ (forall j p e,
           nth_error ps j = Some p -> nth_error es j = Some e ->
           itemRecorded (i + j) p e).
Proof.
  induction ps as [|raw rest IH]; intros i acc w; cbn [batchLoop].
  - exists [], w. unfold countTrue. cbn. rewrite !app_nil_r.
    split; [reflexivity|]. split; [reflexivity|].
    split; [lia|]. split; [lia|]. split; [reflexivity|].
    intros [|j] q e0 Hq; discriminate.
  - destruct (batchItem_effects i raw w) as (e & w1 & E & Hnet & Hclock & Hrand & Hrec).
    unfold bind at 1. rewrite E.
    destruct (IH (S i) (acc ++ [e])%list w1)
      as (es & w2 & E2 & Hnet2 & Hclock2 & Hrand2 & Hlen2 & Hrec2).
    exists (e :: es), w2. rewrite E2, <- app_assoc.
    cbn [app map filter]. rewrite countTrue_cons.
    split; [reflexivity|]. split; [|split; [|split; [|split]]].
    + rewrite Hnet2, Hnet, <- app_assoc.
      destruct (isBlank raw); reflexivity.
    + rewrite Hclock2, Hclock. destruct (success e); lia.
    + rewrite Hrand2, Hrand. destruct (success e); lia.
    + cbn [List.length]. congruence.
    + intros [|j] p e' Hp He; cbn [nth_error] in Hp, He.
      * injection Hp as <-. injection He as <-. rewrite Nat.add_0_r. exact Hrec.
      * rewrite Nat.add_succ_r. exact (Hrec2 j p e' Hp He).
Qed.

End BatchEffects.

Lemma processBatch_effects (env : Env) (b : DecartBatchInput) (w : World)
  (f : FileRef) (csv : CsvFile) (ps : list string) (vr : Response) (vb : Blob) :
  videoFile b = Some f ->
  csvFile b = Some csv -> prompts csv = Some ps ->
  fetch env (List.length (netlog w)) (FetchGet (signedUrl f)) = Normal vr ->
  blob vr = Normal vb ->
  exists es w',
    processBatch env b w = (Normal (Succeeded (BatchResults (batchOutputOf es))), w')
    /\ netlog w'
       = (netlog w ++ FetchGet (signedUrl f)
            :: map (fun p => apiPost env vb (Js.trim p))
                   (filter (fun p => negb (isBlank p)) ps))%list
    /\ clockReads w' = clockReads w + 2 * countTrue (map success es)
    /\ randomReads w' = randomReads w + countTrue (map success es)
    /\ List.length es = List.length ps
    /\ (forall j p e,
           nth_error ps j = Some p -> nth_error es j = Some e -> itemRecorded j p e).
Proof.
  intros Hf Hcsv Hps Hfetch Hblob.
  pose (w1 := {| netlog := (netlog w ++ [FetchGet (signedUrl f)])%list;
                 clockReads := clockReads w; randomReads := randomReads w |}).
  destruct (batchLoop_effects env vb ps 0 [] w1)
    as (es & w' & E & Hnet & Hclock & Hrand & Hlen & Hrec).
  exists es, w'. split.
  - unfold processBatch. rewrite Hf, Hcsv. run_step.
    rewrite Hfetch, Hblob, Hps. run_step. fold w1. rewrite E. reflexivity.
  - subst w1. cbn [netlog clockReads randomReads] in Hnet, Hclock, Hrand.
    split; [rewrite Hnet, <- app_assoc; reflexivity|].
    split; [exact Hclock|]. split; [exact Hrand|]. split; [exact Hlen|]. exact Hrec.
Qed.

(** X10. Polled with any prompt list, validated or not, the batch
    pipeline makes one upstream call for each prompt that is not blank,
    in input order and with the prompt trimmed, and none for a blank
    prompt, which it records as the failure [Empty prompt] with the empty
    string as echoed prompt. *)
Theorem batch_skips_blank_prompts (env : Env) (b : DecartBatchInput) (w : World)
  (f : FileRef) (csv : CsvFile) (ps : list string) (vr : Response) (vb : Blob) :
  videoFile b = Some f ->
  csvFile b = Some csv -> prompts csv = Some ps ->
  fetch env (List.length (netlog w)) (FetchGet (signedUrl f)) = Normal vr ->
  blob vr = Normal vb ->
  exists bo w',
    processBatch env b w = (Normal (Succeeded (BatchResults bo)), w')
    /\ netlog w'
       = (netlog w ++ FetchGet (signedUrl f)
            :: map (fun p => apiPost env vb (Js.trim p))
                   (filter (fun p => negb (isBlank p)) ps))%list
    /\ (forall j p e,
           nth_error ps j = Some p -> nth_error (results bo) j = Some e ->
           isBlank p = true -> e = failureEntry EmptyString "Empty prompt").
Proof.
  intros Hf Hcsv Hps Hfetch Hblob.
  destruct (processBatch_effects env b w f csv ps vr vb Hf Hcsv Hps Hfetch Hblob)
    as (es & w' & E & Hnet & _ & _ & _ & Hrec).
  exists (batchOutputOf es), w'. split; [exact E|]. split; [exact Hnet|].
  intros j p e Hp He Hblank. exact (proj1 (Hrec j p e Hp He) Hblank).
Qed.

(** X10, at a prompt list whose second prompt is blank. *)
Lemma batch_skips_blank_prompts_witness :
  exists bo w',
    processBatch (Sample.envAllOk (Some "key")) (Sample.batch [" a "; "   "; "b"])
                 Sample.world0
    = (Normal (Succeeded (BatchResults bo)), w')
    /\ netlog w'
       = [FetchGet (Some Sample.videoUrl0);
          FetchPost DECART_CONFIG.endpoint (Some "key") "payload" "input.mp4" "a";
          FetchPost DECART_CONFIG.endpoint (Some "key") "payload" "input.mp4" "b"].
Proof.
  destruct (batch_skips_blank_prompts
              (Sample.envAllOk (Some "key")) (Sample.batch [" a "; "   "; "b"])
              Sample.world0 (Sample.mkFile "clip.mp4" (40 * 1048576))
              {| csv_path := "uploads/prompts.csv"; csv_signedUrl := None;
                 csv_mime := "text/csv"; csv_size := 64;
                 prompts := Some [" a "; "   "; "b"] |}
              [" a "; "   "; "b"] (Sample.response 200 "payload") "payload"
              eq_refl eq_refl eq_refl eq_refl eq_refl)
    as (bo & w' & E & Hnet & _).
  exists bo, w'. split; [exact E | exact Hnet].
Defined.

(** X11. In the output of a batch, the entry at position [j] (counting
    from 0) that succeeded carries a video URL ending in [_j.mp4] and a
    generated output file name, and an entry that failed carries neither;
    the clock is read twice and the random source once for each success,
    and not at all for a failure. *)
Theorem batch_names_outputs_by_position (env : Env) (b : DecartBatchInput) (w : World)
  (f : FileRef) (csv : CsvFile) (ps : list string) (vr : Response) (vb : Blob) :
  videoFile b = Some f ->
  csvFile b = Some csv -> prompts csv = Some ps ->
  fetch env (List.length (netlog w)) (FetchGet (signedUrl f)) = Normal vr ->
  blob vr = Normal vb ->
  exists bo w',
    processBatch env b w = (Normal (Succeeded (BatchResults bo)), w')
    /\ clockReads w' = clockReads w + 2 * successCount bo
    /\ randomReads w' = randomReads w + successCount bo
    /\ (forall j e,
           nth_error (results bo) j = Some e ->
           (success e = true ->
            exists t t' random,
              videoUrl e
              = Some ("/static/videos/batch_" ++ Js.numberToString t ++ "_"
                      ++ Js.numberToString (Z.of_nat j) ++ ".mp4")
              /\ outputFile e
                 = Some ("output_" ++ Js.numberToString t' ++ "_"
                         ++ String.substring 2 3 random ++ ".mp4"))
           /\ (success e = false -> videoUrl e = None /\ outputFile e = None)).
Proof.
  intros Hf Hcsv Hps Hfetch Hblob.
  destruct (processBatch_effects env b w f csv ps vr vb Hf Hcsv Hps Hfetch Hblob)
    as (es & w' & E & _ & Hclock & Hrand & Hlen & Hrec).
  destruct (batchOutputOf_accounting es) as (Hsucc & _).
  exists (batchOutputOf es), w'. split; [exact E|].
  rewrite Hsucc. split; [exact Hclock|]. split; [exact Hrand|].
  intros j e He. cbn [results batchOutputOf] in He.
  destruct (nth_error ps j) as [p|] eqn:Hp.
  - exact (proj2 (Hrec j p e Hp He)).
  - apply nth_error_None in Hp.
    assert (j < List.length es) by (apply nth_error_Some; congruence). lia.
Qed.

(** X11, at a batch of three prompts whose second upstream call answers
    500. *)
Lemma batch_names_outputs_by_position_witness :
  exists bo w',
    processBatch Sample.envSecondItemFails (Sample.batch ["a"; "b"; "c"]) Sample.world0
    = (Normal (Succeeded (BatchResults bo)), w')
    /\ clockReads w' = 2 * successCount bo
    /\ randomReads w' = successCount bo
    /\ (forall j e,
           nth_error (results bo) j = Some e -> success e = false ->
           videoUrl e = None /\ outputFile e = None).
Proof.
  destruct (batch_names_outputs_by_position
              Sample.envSecondItemFails (Sample.batch ["a"; "b"; "c"])
              Sample.world0 (Sample.mkFile "clip.mp4" (40 * 1048576))
              {| csv_path := "uploads/prompts.csv"; csv_signedUrl := None;
                 csv_mime := "text/csv"; csv_size := 64;
                 prompts := Some ["a"; "b"; "c"] |}
              ["a"; "b"; "c"] (Sample.response 200 "payload") "payload"
              eq_refl eq_refl eq_refl eq_refl eq_refl)
    as (bo & w' & E & Hclock & Hrand & Hentries).
  exists bo, w'. split; [exact E|]. split; [exact Hclock|]. split; [exact Hrand|].
  intros j e He. exact (proj2 (Hentries j e He)).
Defined.

(** ** Polling with an incomplete request *)

(** X12. Polling does not check that the request is complete. A request
    without its video file fails on the first property read, before any
    network call. A batch request that has its video but lacks the prompt
    list fails only after the video has been downloaded. In each case the
    poll reports the [TypeError] through its error handler. *)
Theorem poll_with_incomplete_request (env : Env) (jobId : string) (w : World) :
  Js.startsWith jobId "decart_" = true ->
  (forall s,
      file s = None ->
      result env jobId (Some (SingleInput s)) w
      = (Normal (onProcessingError (JsError "TypeError" (typeErrorMessage env))), w))
  /\ (forall b,
         videoFile b = None ->
         result env jobId (Some (BatchInput b)) w
         = (Normal (onProcessingError (JsError "TypeError" (typeErrorMessage env))), w))
  /\ (forall b f vr vb,
         videoFile b = Some f ->
         fetch env (List.length (netlog w)) (FetchGet (signedUrl f)) = Normal vr ->
         blob vr = Normal vb ->
         csvFile b = None \/ (exists csv, csvFile b = Some csv /\ prompts csv = None) ->
         result env jobId (Some (BatchInput b)) w
         = (Normal (onProcessingError (JsError "TypeError" (typeErrorMessage env))),
            {| netlog := (netlog w ++ [FetchGet (signedUrl f)])%list;
               clockReads := clockReads w; randomReads := randomReads w |})).
Proof.
  intros Hid. split; [|split].
  - intros s Hf. apply (result_converts_throw env jobId (SingleInput s)); [exact Hid|].
    unfold processSingleVideo. rewrite Hf. reflexivity.
  - intros b Hf. apply (result_converts_throw env jobId (BatchInput b)); [exact Hid|].
    unfold processBatch. rewrite Hf. reflexivity.
  - intros b f vr vb Hf Hfetch Hblob Hcsv.
    apply (result_converts_throw env jobId (BatchInput b)); [exact Hid|].
    unfold processBatch. rewrite Hf. run_step. rewrite Hfetch, Hblob.
    destruct Hcsv as [Hcsv | (csv & Hcsv & Hps)]; rewrite Hcsv; run_step;
      [|rewrite Hps]; reflexivity.
Qed.

(** X12, at a batch request whose CSV carries no prompt list. *)
Lemma poll_with_incomplete_request_witness :
  result (Sample.envAllOk (Some "key")) "decart_batch_1700000000000_k3j9x2p"
         (Some (BatchInput (Scenario.batchOn "landscape" None))) Sample.world0
  = (Normal (Failed "Video processing failed: Cannot read properties of undefined"),
     {| netlog := [FetchGet (Some Sample.videoUrl0)];
        clockReads := 0; randomReads := 0 |}).
Proof.
  destruct (poll_with_incomplete_request
              (Sample.envAllOk (Some "key")) "decart_batch_1700000000000_k3j9x2p"
              Sample.world0 eq_refl) as (_ & _ & H).
  apply (H (Scenario.batchOn "landscape" None)
           (Sample.mkFile "clip.mp4" (40 * 1048576))
           (Sample.response 200 "payload") "payload" eq_refl eq_refl eq_refl).
  right. eexists. split; reflexivity.
Defined.
